(** * iotools: the nested logger, the script profiler and the widget mapper

    A shallow embedding of [iotools/misc/script.py] and of
    [iotools/gui/widget/widget.py].

    Python objects that the code mutates (the logger, the script instance)
    live in a [world] that every statement transforms; an exception leaves the
    world as it was at the raise, so the monad is state under error and not
    error under state.  Calls into collaborators whose code is elsewhere
    ([PrintLog.write], [print], the pickling of the script) are recorded in
    the world's trace of events. *)

From Stdlib Require Import ZArith List Bool Lia.
From Stdlib Require Import Strings.String Strings.Ascii.
Import ListNotations.

Local Open Scope string_scope.
Local Open Scope Z_scope.

Set Implicit Arguments.
Set Warnings "-register-all".

(** ** Python strings *)

Module PyStr.

Definition nl : ascii := "010"%char.
Definition newline : string := String nl EmptyString.

Definition is_nl (c : ascii) : bool := Ascii.eqb c nl.

(** Truth value of a string: [if line] is false on the empty string only. *)
Definition truthy (s : string) : bool :=
  match s with
  | EmptyString => false
  | String _ _ => true
  end.

(** [text.split("\n")]: never the empty list, one more item than there are
    newlines in [text]. *)
Fixpoint split_lines (s : string) : list string :=
  match s with
  | EmptyString => [EmptyString]
  | String c rest =>
      if is_nl c then EmptyString :: split_lines rest
      else match split_lines rest with
           | l :: ls => String c l :: ls
           | [] => [String c EmptyString]
           end
  end.

(** ["\n".join(items)] *)
Definition join_lines (items : list string) : string :=
  String.concat newline items.

(** [s * n] for an int [n]: the empty string when [n <= 0]. *)
Fixpoint repeat_nat (s : string) (n : nat) : string :=
  match n with
  | O => EmptyString
  | S k => s ++ repeat_nat s k
  end.

Definition mul (s : string) (n : Z) : string := repeat_nat s (Z.to_nat n).

End PyStr.

(** ** Exceptions and results *)

Inductive exc_class : Type :=
| ValueError
| TypeError
| AttributeError
| IndexError
| RuntimeError
| OSError
| PicklingError
| KeyboardInterrupt
| SystemExit.

(** [KeyboardInterrupt] and [SystemExit] derive from [BaseException] only:
    an [except Exception] clause lets them through. *)
Definition is_Exception (c : exc_class) : bool :=
  match c with
  | KeyboardInterrupt | SystemExit => false
  | _ => true
  end.

Record pyexc : Type := PyExc { exc_type : exc_class; exc_message : string }.

Definition isinstance_Exception (e : pyexc) : bool := is_Exception (exc_type e).

Inductive result (A : Type) : Type :=
| Ok (a : A)
| Raise (e : pyexc).

Arguments Ok {A} a.
Arguments Raise {A} e.

(** [Maybe(value).else_(alternative)]: the value unless it is [None]. *)
Definition Maybe_else_ {A : Type} (value : option A) (alternative : A) : A :=
  match value with
  | Some v => v
  | None => alternative
  end.

(** ** Python values *)

Inductive pyval : Type :=
| VNone
| VBool (b : bool)
| VInt (n : Z)
| VStr (s : string)
| VList (items : list pyval)
| VDict (items : list (pyval * pyval)).

(** ** The world: the logger object, the script instance, the clock *)

(** [NestedPrintLog]: the two channel flags come from [PrintLog.__init__],
    the indentation fields from the subclass (line 57). *)
Record NestedPrintLog : Type := mkNestedPrintLog {
  path : string;
  active : bool;
  to_stream : bool;
  to_file : bool;
  indentation_token : string;
  indentation_level : Z
}.

(** What leaves the modelled code: calls of the parent class's [write]
    ([super().write(...)], lines 62 and 67), text given to [print] while the
    logger is the active context (lines 96 and 106), and the pickling of the
    script next to its log file (line 154).  The parent's [write] and
    [print] are taken to return. *)
Inductive event : Type :=
| PrintLog_write (text : string) (stream file : bool) (add_newlines : Z)
| Printed (text : string) (stream file : bool)
| Pickled (log_file : string).

Record world : Type := mkWorld {
  log : NestedPrintLog;
  arguments : list (string * pyval);
  serialize : bool;
  clock : nat;
  trace : list event
}.

Definition set_log (l : NestedPrintLog) (w : world) : world :=
  mkWorld l (arguments w) (serialize w) (clock w) (trace w).

Definition set_arguments (a : list (string * pyval)) (w : world) : world :=
  mkWorld (log w) a (serialize w) (clock w) (trace w).

Definition set_serialize (b : bool) (w : world) : world :=
  mkWorld (log w) (arguments w) b (clock w) (trace w).

Definition set_channels (s f : bool) (l : NestedPrintLog) : NestedPrintLog :=
  mkNestedPrintLog (path l) (active l) s f (indentation_token l) (indentation_level l).

Definition set_indentation_level (n : Z) (l : NestedPrintLog) : NestedPrintLog :=
  mkNestedPrintLog (path l) (active l) (to_stream l) (to_file l) (indentation_token l) n.

Definition emit (e : event) (w : world) : world :=
  mkWorld (log w) (arguments w) (serialize w) (clock w) (trace w ++ [e]).

Definition tick (w : world) : world :=
  mkWorld (log w) (arguments w) (serialize w) (S (clock w)) (trace w).

(** ** Statements: state that survives a raise *)

Definition M (A : Type) : Type := world -> result A * world.

Definition ret {A : Type} (a : A) : M A := fun w => (Ok a, w).

Definition raise {A : Type} (e : pyexc) : M A := fun w => (Raise e, w).

Definition bind {A B : Type} (c : M A) (k : A -> M B) : M B :=
  fun w =>
    match c w with
    | (Ok a, w') => k a w'
    | (Raise e, w') => (Raise e, w')
    end.

Declare Scope py_scope.
Delimit Scope py_scope with py.
Notation "x <- c ;; k" := (bind c (fun x => k))
  (at level 61, c at next level, right associativity) : py_scope.
Notation "c ;; k" := (bind c (fun _ => k))
  (at level 61, right associativity) : py_scope.
Local Open Scope py_scope.

Definition get_log : M NestedPrintLog := fun w => (Ok (log w), w).

Definition update_log (f : NestedPrintLog -> NestedPrintLog) : M unit :=
  fun w => (Ok tt, set_log (f (log w)) w).

Definition record (e : event) : M unit := fun w => (Ok tt, emit e w).

(** [DateTime.now()]: reads the clock, which then moves on. *)
Definition DateTime_now : M nat := fun w => (Ok (clock w), tick w).

(** [try: body / except Exception as ex: handler(ex)].  An exception that is
    not an instance of [Exception] passes through the statement. *)
Definition try_except_Exception {A : Type} (body : M A) (handler : pyexc -> M A) : M A :=
  fun w =>
    match body w with
    | (Ok a, w') => (Ok a, w')
    | (Raise ex, w') =>
        if isinstance_Exception ex then handler ex w' else (Raise ex, w')
    end.

(** *** Context managers *)

(** A generator function as [contextlib.contextmanager] takes it, with its
    single [yield] outside any [try] statement: the statements up to the
    [yield], which leave the frame's locals [L], and the statements after
    it. *)
Record generator (L : Type) : Type := mkGenerator {
  until_yield : M L;
  after_yield : L -> M unit
}.

(** [with contextmanager(g)(): body].  [__enter__] runs the generator to its
    [yield].  When the body completes, [__exit__] resumes the generator, which
    runs the statements after the [yield].  When the body raises,
    [__exit__] throws the exception into the generator at the [yield];
    no handler encloses the [yield], so the exception leaves the generator at
    once, the statements after the [yield] are not run, [__exit__] answers
    false and the [with] statement raises the exception again. *)
Definition with_contextmanager {L A : Type} (g : generator L) (body : M A) : M A :=
  fun w =>
    match until_yield g w with
    | (Raise e, w1) => (Raise e, w1)
    | (Ok locals, w1) =>
        match body w1 with
        | (Ok a, w2) =>
            match after_yield g locals w2 with
            | (Ok _, w3) => (Ok a, w3)
            | (Raise e, w3) => (Raise e, w3)
            end
        | (Raise e, w2) => (Raise e, w2)
        end
    end.

(** [with obj: body] for an object with [__enter__] and [__exit__] methods
    whose [__exit__] returns [None]: it runs on both ways out of the body and
    an exception of the body goes on afterwards. *)
Definition with_object {A : Type} (enter : M unit) (exit : M unit) (body : M A) : M A :=
  fun w =>
    match enter w with
    | (Raise e, w1) => (Raise e, w1)
    | (Ok _, w1) =>
        match body w1 with
        | (Ok a, w2) =>
            match exit w2 with
            | (Ok _, w3) => (Ok a, w3)
            | (Raise e, w3) => (Raise e, w3)
            end
        | (Raise e, w2) =>
            match exit w2 with
            | (Ok _, w3) => (Raise e, w3)
            | (Raise e', w3) => (Raise e', w3)
            end
        end
    end.

(** ** NestedPrintLog *)

Section Logger.

(** [DateTime.to_logformat] of the instant read at clock value [n]. *)
Variable to_logformat : nat -> string.

(** [NestedPrintLog.__init__] (lines 55-57). *)
Definition NestedPrintLog_init (path : string) : NestedPrintLog :=
  mkNestedPrintLog path true true true "    " 0.

(** The line prefix of line 65. *)
Definition file_prefix (now : nat) (self : NestedPrintLog) : string :=
  to_logformat now ++ " - " ++ PyStr.mul (indentation_token self) (indentation_level self).

(** The generator expression of line 66. *)
Definition prefix_line (prefix line : string) : string :=
  if PyStr.truthy line then prefix ++ line else "".

Definition new_text (prefix text : string) : string :=
  PyStr.join_lines (map (prefix_line prefix) (PyStr.split_lines text)).

(** [NestedPrintLog.write] (lines 59-67). *)
Definition write (text : string) (to_stream' to_file' : option bool) (add_newlines : Z) : M unit :=
  self <- get_log ;;
  (if Maybe_else_ to_stream' (to_stream self)
   then record (PrintLog_write text true false add_newlines)
   else ret tt) ;;
  self <- get_log ;;
  if Maybe_else_ to_file' (to_file self)
  then
    now <- DateTime_now ;;
    let prefix := file_prefix now self in
    record (PrintLog_write (new_text prefix text) false true add_newlines)
  else ret tt.

(** [NestedPrintLog.indentation] (lines 69-73). *)
Definition indentation : generator unit :=
  mkGenerator
    (update_log (fun self => set_indentation_level (indentation_level self + 1) self))
    (fun _ => update_log (fun self => set_indentation_level (indentation_level self - 1) self)).

(** [NestedPrintLog.reset_output_channels_soon] (lines 75-79); the locals
    at the [yield] are the two flags read on entry. *)
Definition reset_output_channels_soon : generator (bool * bool) :=
  mkGenerator
    (self <- get_log ;; ret (to_stream self, to_file self))
    (fun saved => update_log (set_channels (fst saved) (snd saved))).

End Logger.

(** ** Functions, method wrappers and classes as objects *)

(** The attributes [functools.WRAPPER_ASSIGNMENTS] copies that this
    development follows. *)
Record metadata : Type := mkMetadata {
  md_module : string;
  md_name : string;
  md_qualname : string;
  md_doc : option string
}.

(** A function object: its metadata and the code it runs. *)
Record function : Type := mkFunction {
  fn_meta : metadata;
  fn_code : nat
}.

Record pyclass : Type := mkClass {
  cls_name : string;
  (** [cls.__repr__ is not object.__repr__] *)
  cls_has_repr : bool
}.

(** What a class namespace can hold under a name.  A [staticmethod] or
    [classmethod] object has attributes of its own ([attrs], none when it is
    made) besides the function it wraps, its [__func__]; a bound method has a
    [__func__] too and is neither; any other object has none. *)
Inductive pyobject : Type :=
| Function (f : function)
| StaticMethod (attrs : option metadata) (f : function)
| ClassMethod (attrs : option metadata) (f : function)
| BoundMethod (receiver : nat) (f : function)
| Object (type_name : string).

(** [inspect.isfunction(o)], and the object as the function it then is. *)
Definition isfunction (o : pyobject) : bool :=
  match o with Function _ => true | _ => false end.

Definition as_function (o : pyobject) : option function :=
  match o with Function f => Some f | _ => None end.

Definition isinstance_staticmethod (o : pyobject) : bool :=
  match o with StaticMethod _ _ => true | _ => false end.

Definition isinstance_classmethod (o : pyobject) : bool :=
  match o with ClassMethod _ _ => true | _ => false end.

(** [o.__func__] *)
Definition getattr_func (o : pyobject) : result function :=
  match o with
  | StaticMethod _ f | ClassMethod _ f | BoundMethod _ f => Ok f
  | Function _ => Raise (PyExc AttributeError "'function' object has no attribute '__func__'")
  | Object t => Raise (PyExc AttributeError ("'" ++ t ++ "' object has no attribute '__func__'"))
  end.

(** The metadata found on the object itself. *)
Definition own_metadata (o : pyobject) : option metadata :=
  match o with
  | Function f => Some (fn_meta f)
  | StaticMethod attrs _ | ClassMethod attrs _ => attrs
  | BoundMethod _ _ | Object _ => None
  end.

(** How a member is reached: [instance.member] or [cls.member]. *)
Inductive access : Type :=
| ThroughInstance (obj : nat)
| ThroughClass.

(** The first argument the call supplies without the caller writing it. *)
Inductive implicit_argument : Type :=
| NoImplicit
| TheInstance (obj : nat)
| TheClass (c : pyclass).

(** The descriptor protocol: what attribute access on class [c] (or on an
    instance of it) gives for the member, as the argument it supplies and the
    function it ends up calling. *)
Definition calling_convention (c : pyclass) (member : pyobject) (a : access)
  : option (implicit_argument * function) :=
  match member, a with
  | Function f, ThroughInstance obj => Some (TheInstance obj, f)
  | Function f, ThroughClass => Some (NoImplicit, f)
  | StaticMethod _ f, _ => Some (NoImplicit, f)
  | ClassMethod _ f, _ => Some (TheClass c, f)
  | BoundMethod receiver f, _ => Some (TheInstance receiver, f)
  | Object _, _ => None
  end.

Definition implicit_first_argument (c : pyclass) (member : pyobject) (a : access)
  : option implicit_argument :=
  option_map fst (calling_convention c member a).

(** [functools.wraps(wrapped)(wrapper)]: assigns the metadata of [wrapped] on
    the [wrapper] object and returns it.  On a function they replace its own;
    on a [staticmethod] or [classmethod] object they become attributes of
    that object.  A bound method accepts no attribute. *)
Definition functools_wraps (wrapped : function) (wrapper : pyobject) : result pyobject :=
  match wrapper with
  | Function f => Ok (Function (mkFunction (fn_meta wrapped) (fn_code f)))
  | StaticMethod _ f => Ok (StaticMethod (Some (fn_meta wrapped)) f)
  | ClassMethod _ f => Ok (ClassMethod (Some (fn_meta wrapped)) f)
  | BoundMethod _ _ =>
      Raise (PyExc AttributeError "'method' object has no attribute '__module__'")
  | Object t =>
      Raise (PyExc AttributeError ("'" ++ t ++ "' object has no attribute '__module__'"))
  end.

(** ** FunctionSpec *)

Inductive FunctionType : Type := INSTANCE | STATIC | CLASS | UNKNOWN.

Definition FunctionType_eqb (a b : FunctionType) : bool :=
  match a, b with
  | INSTANCE, INSTANCE | STATIC, STATIC | CLASS, CLASS | UNKNOWN, UNKNOWN => true
  | _, _ => false
  end.

Record FunctionSpec : Type := mkFunctionSpec {
  class_ : pyclass;
  name : string;
  func : function;
  type : FunctionType;
  is_static : bool;
  is_instance : bool;
  is_class : bool;
  is_bound : bool
}.

Section FunctionSpecMethods.

(** [ReprMixin.__repr__] of a record, from the [miscutils] package. *)
Variable repr_FunctionSpec : FunctionSpec -> string.

(** [FunctionSpec.__init__] (lines 24-39).  Line 25 takes the function out
    of the reference before the reference is classified. *)
Definition FunctionSpec_init (parent : pyclass) (name' : string) (parent_reference : pyobject)
  : result FunctionSpec :=
  let ref_is_func := isfunction parent_reference in
  match (match as_function parent_reference with
         | Some f => Ok f
         | None => getattr_func parent_reference
         end) with
  | Raise e => Raise e
  | Ok func' =>
      let type' :=
        if ref_is_func then INSTANCE
        else if isinstance_staticmethod parent_reference then STATIC
        else if isinstance_classmethod parent_reference then CLASS
        else UNKNOWN in
      let is_static' := FunctionType_eqb type' STATIC in
      let is_instance' := FunctionType_eqb type' INSTANCE in
      let is_class' := FunctionType_eqb type' CLASS in
      Ok (mkFunctionSpec parent (cls_name parent ++ "." ++ name') func' type'
            is_static' is_instance' is_class' (is_instance' || is_class'))
  end.

(** [FunctionSpec.wrap] (lines 41-51). *)
Definition wrap (self : FunctionSpec) (func' : function) : result pyobject :=
  match (if is_instance self then Ok (Function func')
         else if is_static self then Ok (StaticMethod None func')
         else if is_class self then Ok (ClassMethod None func')
         else Raise (PyExc ValueError
                       ("Don't know function type of " ++ repr_FunctionSpec self ++ "."))) with
  | Raise e => Raise e
  | Ok half_wrapped => functools_wraps (func self) half_wrapped
  end.

End FunctionSpecMethods.

(** ** ScriptProfiler *)

(** Modelled from the spec: [PrintLog.__call__], [__enter__] and [__exit__]
    of [iotools/misc/log.py], which is not among the sources.  Calling the
    logger sets the channel flags that are given and returns the logger; as a
    context it takes over [print], whose text reaches the channels that are on
    at that moment ("to the console channel only if the decorator's verbose
    flag is set, unconditionally to the file channel"). *)
Definition PrintLog_call (to_stream' to_file' : option bool) : M unit :=
  update_log (fun self =>
    set_channels (Maybe_else_ to_stream' (to_stream self))
                 (Maybe_else_ to_file' (to_file self)) self).

(** Modelled from the spec: [with self.log(to_stream=...): body], the call of
    the logger followed by its use as a context.  The parent class has no
    indentation fields, which the subclass adds: entering and leaving the
    context leave the depth alone. *)
Definition with_log {A : Type} (to_stream' : option bool) (body : M A) : M A :=
  PrintLog_call to_stream' None ;;
  with_object (ret tt) (ret tt) body.

(** Modelled from the spec: [print(text)] while the logger is the context,
    recorded with the channels that are on. *)
Definition print (text : string) : M unit :=
  self <- get_log ;;
  record (Printed text (to_stream self) (to_file self)).

Section Profiler.

(** [repr] of a value, the run of a function object on its arguments, and
    the text of a [Timer] started and read at two clock values. *)
Variable repr : pyval -> string.
Variable call : function -> list pyval -> list (string * pyval) -> M pyval.
Variable Timer_str : nat -> nat -> string.

Definition comma_join (items : list string) : string := String.concat ", " items.

(** Line 90. *)
Definition receiver_of (spec : FunctionSpec) (args : list pyval) : M pyval :=
  if is_instance spec
  then match args with
       | a :: _ => ret a
       | [] => raise (PyExc IndexError "tuple index out of range")
       end
  else ret VNone.

(** Lines 91-92. *)
Definition render_arguments (spec : FunctionSpec) (args : list pyval)
           (kwargs : list (string * pyval)) : string :=
  let positional := comma_join (map repr (skipn (if is_bound spec then 1 else 0)%nat args)) in
  let keyword := comma_join (map (fun kv => fst kv ++ "=" ++ repr (snd kv)) kwargs) in
  positional
    ++ (if PyStr.truthy positional && PyStr.truthy keyword then ", " else "")
    ++ keyword.

(** Line 106. *)
Definition finish_line (spec : FunctionSpec) (started read : nat)
           (ret' instance : pyval) : string :=
  let has_repr := cls_has_repr (class_ spec) in
  name spec ++ " finished in " ++ Timer_str started read ++ " seconds, returning: "
    ++ repr ret' ++ "."
    ++ (if is_instance spec && has_repr
        then " State of the " ++ cls_name (class_ spec) ++ " object is: " ++ repr instance
        else "").

(** [script_wrapper] (lines 89-108) of a profiler whose [verbose] flag is
    given. *)
Definition script_wrapper (verbose : bool) (spec : FunctionSpec)
           (args : list pyval) (kwargs : list (string * pyval)) : M pyval :=
  instance <- receiver_of spec args ;;
  let arguments' := render_arguments spec args kwargs in
  with_contextmanager reset_output_channels_soon
    (with_log (Some verbose)
       (print (name spec ++ "(" ++ arguments' ++ ") starting...")) ;;
     timer <- DateTime_now ;;
     ret' <- with_log (Some true)
               (with_contextmanager indentation (call (func spec) args kwargs)) ;;
     with_log (Some verbose)
       (read <- DateTime_now ;;
        print (finish_line spec timer read ret' instance)) ;;
     ret ret').

End Profiler.

(** ** ScriptMeta *)

Section ScriptMeta.

Variable to_logformat : nat -> string.

(** [traceback.format_exc()] while the exception is handled. *)
Variable format_exc : pyexc -> string.

(** The file lines 136-142 create for a script constructed at the instant
    read on line 141. *)
Variable new_log_file : nat -> string.

(** The pickling of line 154, by the [pathmagic] package: the exception it
    ends with in a given world, if it does. *)
Variable dump : world -> option pyexc.

Definition pickle_script : M unit :=
  fun w =>
    match dump w with
    | Some e => (Raise e, w)
    | None => (Ok tt, emit (Pickled (path (log w))) w)
    end.

(** [init_wrapper] (lines 133-157); [func] is the constructor it wraps,
    already applied to the script. *)
Definition init_wrapper (func' : list pyval -> list (string * pyval) -> M pyval)
           (args : list pyval) (kwargs : list (string * pyval)) : M unit :=
  (fun w => (Ok tt, set_arguments kwargs w)) ;;
  now <- DateTime_now ;;
  update_log (fun _ => NestedPrintLog_init (new_log_file now)) ;;
  exception <- try_except_Exception
                 (func' args kwargs ;; ret None)
                 (fun ex =>
                    write to_logformat (format_exc ex) (Some false) None 0 ;;
                    ret (Some ex)) ;;
  serialize' <- (fun w => (Ok (serialize w), w)) ;;
  (if serialize' : bool then pickle_script else ret tt) ;;
  match exception with
  | Some ex => raise ex
  | None => ret tt
  end.

End ScriptMeta.

(** ** The widget mapper *)

Module Widget.

(** Modelled from the spec: the descriptor classes of
    [iotools/command/argument.py], which is not among the sources, as the
    "tagged variant over {string, boolean, integer, float, file-path,
    directory-path, date-time, date, list, dictionary}, each carrying a
    default value, optional enumerated choices, and an optional magnitude
    display hint".  [OtherArgument] stands for an [Argument] of none of the
    ten classes, under its class name. *)
Inductive argument_class : Type :=
| StringArgument
| BooleanArgument
| IntegerArgument
| FloatArgument
| FileArgument
| DirArgument
| DateTimeArgument
| DateArgument
| ListArgument
| DictArgument
| OtherArgument (class_name : string).

Inductive pytype : Type := Tstr | Tbool | Tint | Tfloat | Tobject.

(** [arg.validator.deep_type]: nothing, one type, or a pair of key and
    value types. *)
Inductive deep : Type :=
| DeepNone
| DeepOf (item : pytype)
| DeepPair (key value : pytype).

Record Argument : Type := mkArgument {
  arg_class : argument_class;
  default : pyval;
  choices : option (list pyval);
  widget_magnitude : option Z;
  deep_type : deep
}.

(** [type(arg).__name__] *)
Definition type_name (arg : Argument) : string :=
  match arg_class arg with
  | StringArgument => "StringArgument"
  | BooleanArgument => "BooleanArgument"
  | IntegerArgument => "IntegerArgument"
  | FloatArgument => "FloatArgument"
  | FileArgument => "FileArgument"
  | DirArgument => "DirArgument"
  | DateTimeArgument => "DateTimeArgument"
  | DateArgument => "DateArgument"
  | ListArgument => "ListArgument"
  | DictArgument => "DictArgument"
  | OtherArgument n => n
  end.

(** [arg.validator.deep_type == (str, bool)] *)
Definition deep_is_str_bool (d : deep) : bool :=
  match d with
  | DeepPair Tstr Tbool => true
  | _ => false
  end.

(** The widgets the mapper constructs, each with the arguments its
    constructor is given. *)
Inductive control : Type :=
| DropDown (choices : list pyval) (state : pyval)
| CheckBar (choices : pyval)
| Checkbox (state : pyval)
| IntEntry (state : pyval)
| FloatEntry (state : pyval)
| FileSelect (state : pyval)
| DirSelect (state : pyval)
| DateTimeEdit (state : pyval) (magnitude : option Z)
| Calendar (state : pyval)
| Text (state : pyval) (magnitude : option Z)
| Entry (state : pyval)
| List (state : pyval) (deep_type : Argument)
| Tree (state : pyval).

Record WidgetHandler : Type := mkHandler {
  widget : control;
  argument : option Argument
}.

(** A handle as its constructor leaves it. *)
Definition new (c : control) : WidgetHandler := mkHandler c None.

(** Modelled from the spec: [WidgetHandler.with_argument] of
    [iotools/gui/widget/base.py], which is not among the sources: "every
    returned handle is then bound to its originating descriptor"; the
    handle itself is returned. *)
Definition with_argument (handler : WidgetHandler) (arg : Argument) : WidgetHandler :=
  mkHandler (widget handler) (Some arg).

(** Truth value of [arg.widget_magnitude and arg.widget_magnitude > 1]:
    [None] and [0] are false before the comparison is made. *)
Definition magnitude_above_one (m : option Z) : bool :=
  match m with
  | None => false
  | Some n => negb (n =? 0) && (1 <? n)
  end.

(** [Maybe(arg.default).else_(False)] *)
Definition Maybe_else_False (v : pyval) : pyval :=
  match v with
  | VNone => VBool false
  | _ => v
  end.

(** [isinstance(arg, cls)] for one of the ten descriptor classes, none of
    which is taken to derive from another. *)
Definition isinstance (arg : Argument) (cls : argument_class) : bool :=
  match arg_class arg, cls with
  | StringArgument, StringArgument
  | BooleanArgument, BooleanArgument
  | IntegerArgument, IntegerArgument
  | FloatArgument, FloatArgument
  | FileArgument, FileArgument
  | DirArgument, DirArgument
  | DateTimeArgument, DateTimeArgument
  | DateArgument, DateArgument
  | ListArgument, ListArgument
  | DictArgument, DictArgument => true
  | _, _ => false
  end.

Section FromArgument.

(** [str(arg)] *)
Variable str_Argument : Argument -> string.

(** [Widget.from_argument] (lines 61-89). *)
Definition from_argument (arg : Argument) : result WidgetHandler :=
  match
    (match choices arg with
     | Some cs => Ok (new (DropDown cs (default arg)))
     | None =>
         if isinstance arg DictArgument && deep_is_str_bool (deep_type arg)
         then Ok (new (CheckBar (default arg)))
         else if isinstance arg BooleanArgument
         then Ok (new (Checkbox (Maybe_else_False (default arg))))
         else if isinstance arg IntegerArgument
         then Ok (new (IntEntry (default arg)))
         else if isinstance arg FloatArgument
         then Ok (new (FloatEntry (default arg)))
         else if isinstance arg FileArgument
         then Ok (new (FileSelect (default arg)))
         else if isinstance arg DirArgument
         then Ok (new (DirSelect (default arg)))
         else if isinstance arg DateTimeArgument
         then Ok (new (DateTimeEdit (default arg) (widget_magnitude arg)))
         else if isinstance arg DateArgument
         then Ok (new (Calendar (default arg)))
         else if isinstance arg StringArgument
         then (if magnitude_above_one (widget_magnitude arg)
               then Ok (new (Text (default arg) (widget_magnitude arg)))
               else Ok (new (Entry (default arg))))
         else if isinstance arg ListArgument
         then Ok (new (List (default arg) arg))
         else if isinstance arg DictArgument
         then Ok (new (Tree (default arg)))
         else Raise (PyExc TypeError
                       ("Don't know how to handle " ++ type_name arg ++ ": "
                          ++ str_Argument arg))
     end)
  with
  | Raise e => Raise e
  | Ok handler => Ok (with_argument handler arg)
  end.

End FromArgument.

End Widget.

(** ** Worlds and objects the properties speak of *)

(** The sentence "prefixes every non-empty line with ...; empty lines are
    left unprefixed", read off the text one character at a time:
    [at_line_start] holds before the first character of a line, and the prefix
    goes in front of that character unless the line ends there. *)
Fixpoint prefix_nonempty_lines (prefix : string) (at_line_start : bool) (text : string)
  : string :=
  match text with
  | EmptyString => EmptyString
  | String c rest =>
      if PyStr.is_nl c
      then String c (prefix_nonempty_lines prefix true rest)
      else ((if at_line_start then prefix else EmptyString)
              ++ String c (prefix_nonempty_lines prefix false rest))%string
  end.

Section Worlds.

Variable to_logformat : nat -> string.
Variable format_exc : pyexc -> string.
Variable new_log_file : nat -> string.
Variable repr : pyval -> string.

Definition depth (w : world) : Z := indentation_level (log w).

(** The world in which the block of an indentation scope starts. *)
Definition indented (w : world) : world :=
  set_log (set_indentation_level (depth w + 1) (log w)) w.

(** The world in which [script_wrapper] calls the wrapped function: the
    start line is printed, the timer started, the stream turned on and the
    depth raised. *)
Definition at_call (verbose : bool) (spec : FunctionSpec)
           (args : list pyval) (kwargs : list (string * pyval)) (w : world) : world :=
  let line := (name spec ++ "(" ++ render_arguments repr spec args kwargs
                 ++ ") starting...")%string in
  let printed := tick (emit (Printed line verbose (to_file (log w)))
                         (set_log (set_channels verbose (to_file (log w)) (log w)) w)) in
  indented (set_log (set_channels true (to_file (log w)) (log printed)) printed).

(** The world in which the constructor body starts: the keyword arguments
    kept, the clock read, a new logger installed. *)
Definition at_body (kwargs : list (string * pyval)) (w : world) : world :=
  set_log (NestedPrintLog_init (new_log_file (clock w))) (tick (set_arguments kwargs w)).

(** The world after the handler of line 151 has written the trace. *)
Definition traced (e : pyexc) (w : world) : world :=
  snd (write to_logformat (format_exc e) (Some false) None 0 w).

End Worlds.

(** The call-kind line 25 and the branches after it arrive at. *)
Definition kind_of (parent_reference : pyobject) : FunctionType :=
  match parent_reference with
  | Function _ => INSTANCE
  | StaticMethod _ _ => STATIC
  | ClassMethod _ _ => CLASS
  | BoundMethod _ _ | Object _ => UNKNOWN
  end.

(** ** Sample objects *)

Definition sample_log : NestedPrintLog := NestedPrintLog_init "run.txt".

Definition sample_world : world := mkWorld sample_log [] false 0 [].

Definition boom : pyexc := PyExc ValueError "boom".

Definition sample_repr (v : pyval) : string :=
  match v with
  | VNone => "None"
  | VBool true => "True"
  | VBool false => "False"
  | VStr s => "'" ++ s ++ "'"
  | _ => "<object>"
  end.

Definition sample_timer (started read : nat) : string := "0.0".

Definition sample_to_logformat (now : nat) : string := "2020-01-01 00:00:00".

(** A wrapped function that raises as soon as it is called. *)
Definition failing_call (f : function) (args : list pyval) (kwargs : list (string * pyval))
  : M pyval := raise boom.

(** A block that turns both channels off and raises. *)
Definition muting_block : M unit :=
  update_log (set_channels false false) ;; raise boom.

Definition sample_class : pyclass := mkClass "Job" false.

Definition sample_function : function :=
  mkFunction (mkMetadata "jobs" "run" "Job.run" (Some "Run the job.")) 7.

Definition sample_wrapper : function :=
  mkFunction (mkMetadata "iotools.misc.script" "script_wrapper"
                "ScriptProfiler.__call__.<locals>.script_wrapper" None) 8.

Definition sample_spec : FunctionSpec :=
  mkFunctionSpec sample_class "Job.run" sample_function STATIC true false false false.

Definition serializing_world : world := mkWorld sample_log [] true 0 [].

Definition pickling_error : pyexc := PyExc PicklingError "Can't pickle local object".

Definition interrupt : pyexc := PyExc KeyboardInterrupt "".

Definition sample_format_exc (e : pyexc) : string :=
  "Traceback (most recent call last):" ++ PyStr.newline ++ exc_message e.

Definition sample_new_log_file (now : nat) : string := "logs/run.txt".

Definition dump_succeeds (w : world) : option pyexc := None.

Definition dump_fails (w : world) : option pyexc := Some pickling_error.

(** Constructor bodies: one that raises at once, one that is interrupted, one
    that turns the file channel off and raises. *)
Definition failing_init (args : list pyval) (kwargs : list (string * pyval)) : M pyval :=
  raise boom.

Definition interrupted_init (args : list pyval) (kwargs : list (string * pyval)) : M pyval :=
  raise interrupt.

Definition muting_init (args : list pyval) (kwargs : list (string * pyval)) : M pyval :=
  update_log (fun self => set_channels (to_stream self) false self) ;; raise boom.

Definition sample_static : pyobject := StaticMethod None sample_function.

Definition sample_repr_FunctionSpec (spec : FunctionSpec) : string :=
  "FunctionSpec(name='" ++ name spec ++ "')".

Module WidgetSamples.
Import Widget.

Definition sample_str (arg : Argument) : string := "Argument(" ++ type_name arg ++ ")".

(** A boolean descriptor with two choices, string descriptors with
    magnitude hints 1 and 2, and a descriptor of a class the mapper does
    not know. *)
Definition boolean_with_choices : Argument :=
  mkArgument BooleanArgument (VBool true) (Some [VBool true; VBool false]) None DeepNone.

Definition string_of_magnitude (m : Z) : Argument :=
  mkArgument StringArgument (VStr "text") None (Some m) DeepNone.

Definition unknown_descriptor : Argument :=
  mkArgument (OtherArgument "TableArgument") VNone None None DeepNone.

(** A boolean descriptor without a default, and a dictionary of flags. *)
Definition unset_boolean : Argument :=
  mkArgument BooleanArgument VNone None None DeepNone.

Definition flags_descriptor : Argument :=
  mkArgument DictArgument (VDict [(VStr "fast", VBool true)]) None None
    (DeepPair Tstr Tbool).

End WidgetSamples.

(** ** The rest of the script module *)

(** [s.startswith(p)] and [s.endswith(p)] *)
Definition startswith (s p : string) : bool := String.prefix p s.

Definition endswith (s p : string) : bool :=
  let n := String.length s in
  let k := String.length p in
  (k <=? n)%nat && String.eqb (String.substring (n - k) k s) p.

(** The test on the name in line 125. *)
Definition wrappable_name (name' : string) : bool :=
  String.eqb name' "__init__" || negb (startswith name' "__" && endswith name' "__").

(** [ScriptMeta._is_valid_function_type] (lines 161-162). *)
Definition _is_valid_function_type (candidate : pyobject) : bool :=
  isfunction candidate
  || (isinstance_staticmethod candidate || isinstance_classmethod candidate).

(** A class object with its namespace, [vars(item)], in the order of
    definition.  An attribute is a class defined in the body or any other
    object; a class reached from two places is not covered. *)
Inductive class_object : Type :=
| Class (c : pyclass) (vars : list (string * attribute))
with attribute : Type :=
| Attr (o : pyobject)
| NestedClass (k : class_object).

Definition class_of (item : class_object) : pyclass :=
  match item with Class c _ => c end.

Definition vars_of (item : class_object) : list (string * attribute) :=
  match item with Class _ vars => vars end.

Section Wrapping.

Variable repr_FunctionSpec : FunctionSpec -> string.

(** The code of the [script_wrapper] closure made for a record. *)
Variable closure : FunctionSpec -> nat.

(** The function object of a [script_wrapper] closure (line 89). *)
Definition script_wrapper_function (spec : FunctionSpec) : function :=
  mkFunction (mkMetadata "iotools.misc.script" "script_wrapper"
                "ScriptProfiler.__call__.<locals>.script_wrapper" None)
             (closure spec).

(** [ScriptProfiler.__call__] (lines 88-110): the closure, wrapped as the
    record says. *)
Definition ScriptProfiler_call (spec : FunctionSpec) : result pyobject :=
  wrap repr_FunctionSpec spec (script_wrapper_function spec).

(** One turn of the loop of lines 124-129 on the attribute [val] of the class
    [parent], with the visit of the classes inside it given. *)
Definition wrap_attribute (visit : class_object -> result unit * class_object)
           (parent : pyclass) (name' : string) (val : attribute)
  : result unit * attribute :=
  match val with
  | Attr o =>
      if _is_valid_function_type o && wrappable_name name'
      then match FunctionSpec_init parent name' o with
           | Raise e => (Raise e, val)
           | Ok spec =>
               match ScriptProfiler_call spec with
               | Raise e => (Raise e, val)
               | Ok wrapped => (Ok tt, Attr wrapped)
               end
           end
      else (Ok tt, val)
  | NestedClass k =>
      let (r, k') := visit k in (r, NestedClass k')
  end.

(** [ScriptMeta._recursively_wrap] (lines 123-129).  The class is changed in
    place: what was set before a raise stays set. *)
Fixpoint _recursively_wrap (item : class_object) : result unit * class_object :=
  match item with
  | Class c vars =>
      let (r, vars') :=
        (fix loop (items : list (string * attribute))
           : result unit * list (string * attribute) :=
           match items with
           | [] => (Ok tt, [])
           | (name', val) :: rest =>
               match wrap_attribute _recursively_wrap c name' val with
               | (Ok _, val') =>
                   let (r, rest') := loop rest in (r, (name', val') :: rest')
               | (Raise e, val') => (Raise e, (name', val') :: rest)
               end
           end) vars in
      (r, Class c vars')
  end.

End Wrapping.

(** [Script.__repr__] (lines 183-184) of an instance of the class named
    [type_name] whose [__dict__] is [dict]. *)
Definition Script_repr (repr : pyval -> string) (type_name : string)
           (dict : list (string * pyval)) : string :=
  type_name ++ "("
    ++ comma_join (map (fun av => fst av ++ "=" ++ repr (snd av))
                     (filter (fun av => negb (startswith (fst av) "_")) dict))
    ++ ")".

(** [n] indentation scopes, one inside the other, around a block. *)
Fixpoint nested_indentation {A : Type} (n : nat) (block : M A) : M A :=
  match n with
  | O => block
  | S k => with_contextmanager indentation (nested_indentation k block)
  end.

(** The world with the depth moved by [d]. *)
Definition deeper (d : Z) (w : world) : world :=
  set_log (set_indentation_level (depth w + d) (log w)) w.

(** The lines of a text that are not empty. *)
Definition nonempty_lines (text : string) : nat :=
  List.length (filter PyStr.truthy (PyStr.split_lines text)).

(** What the constructor of a widget is given from the default of the
    descriptor: its state, or the choices of a [CheckBar]. *)
Definition seed (c : Widget.control) : pyval :=
  match c with
  | Widget.DropDown _ state
  | Widget.Checkbox state
  | Widget.IntEntry state
  | Widget.FloatEntry state
  | Widget.FileSelect state
  | Widget.DirSelect state
  | Widget.DateTimeEdit state _
  | Widget.Calendar state
  | Widget.Text state _
  | Widget.Entry state
  | Widget.List state _
  | Widget.Tree state => state
  | Widget.CheckBar choices => choices
  end.

(** The receiver line 90 picks. *)
Definition receiver (spec : FunctionSpec) (args : list pyval) : pyval :=
  if is_instance spec then hd VNone args else VNone.


Definition sample_method : FunctionSpec :=
  mkFunctionSpec sample_class "Job.step" sample_function INSTANCE false true false true.

(** A constructor body that turns [serialize] on and returns. *)
Definition serializing_init (args : list pyval) (kwargs : list (string * pyval)) : M pyval :=
  fun w => (Ok VNone, set_serialize true w).

(** The function under a member: the member itself when it is a function,
    its [__func__] when it has one (line 25). *)
Definition getattr_func_or_self (o : pyobject) : option function :=
  match o with
  | Function f | StaticMethod _ f | ClassMethod _ f | BoundMethod _ f => Some f
  | Object _ => None
  end.

(** Closure codes that tell the records apart by the code they wrap. *)
Definition sample_closure (spec : FunctionSpec) : nat := (100 + fn_code (func spec))%nat.

(** A class with a constructor, a [__repr__], a static method, a number and
    a class inside it. *)
Definition sample_init : function :=
  mkFunction (mkMetadata "jobs" "__init__" "Job.__init__" None) 1.

Definition sample_dunder : function :=
  mkFunction (mkMetadata "jobs" "__repr__" "Job.__repr__" None) 2.

Definition sample_step : function :=
  mkFunction (mkMetadata "jobs" "step" "Job.Part.step" None) 3.

Definition sample_part : class_object :=
  Class (mkClass "Part" false) [("step", Attr (Function sample_step))].

Definition sample_job : class_object :=
  Class sample_class
    [("__init__", Attr (Function sample_init));
     ("__repr__", Attr (Function sample_dunder));
     ("run", Attr sample_static);
     ("limit", Attr (Object "int"));
     ("Part", NestedClass sample_part)].

(** * Properties *)

(** ** Lines of a text *)

Module PyStrFacts.
Import PyStr.

Lemma append_assoc (a b c : string) : ((a ++ b) ++ c = a ++ (b ++ c))%string.
Proof. induction a as [|x a IH]; simpl; [reflexivity | now rewrite IH]. Qed.

Lemma split_lines_cons (s : string) : exists l ls, split_lines s = l :: ls.
Proof.
  destruct s as [|c rest]; simpl; [now eexists; eexists|].
  destruct (is_nl c); [now eexists; eexists|].
  destruct (split_lines rest); now eexists; eexists.
Qed.

Lemma join_lines_cons_cons (a b : string) (xs : list string) :
  join_lines (a :: b :: xs) = (a ++ newline ++ join_lines (b :: xs))%string.
Proof. reflexivity. Qed.

Lemma join_lines_append_head (a b : string) (xs : list string) :
  join_lines ((a ++ b)%string :: xs) = (a ++ join_lines (b :: xs))%string.
Proof.
  destruct xs as [|y ys]; [reflexivity|].
  rewrite !join_lines_cons_cons. apply append_assoc.
Qed.

Lemma join_lines_String_head (c : ascii) (l : string) (xs : list string) :
  join_lines (String c l :: xs) = String c (join_lines (l :: xs)).
Proof. destruct xs; reflexivity. Qed.

(** Splitting and joining again gives the text back. *)
Lemma join_split_lines (s : string) : join_lines (split_lines s) = s.
Proof.
  induction s as [|c rest IH]; [reflexivity|].
  simpl. destruct (is_nl c) eqn:E.
  - destruct (split_lines_cons rest) as (l & ls & Hs).
    rewrite Hs in *. rewrite join_lines_cons_cons. simpl.
    apply Ascii.eqb_eq in E. subst c. now rewrite IH.
  - destruct (split_lines_cons rest) as (l & ls & Hs).
    rewrite Hs in *. rewrite join_lines_String_head. now rewrite IH.
Qed.

Lemma repeat_nat_length (s : string) (n : nat) :
  String.length (repeat_nat s n) = (n * String.length s)%nat.
Proof.
  induction n as [|n IH]; [reflexivity|]. simpl.
  assert (L : forall a b, String.length (a ++ b) = (String.length a + String.length b)%nat).
  { intros a b. induction a as [|x a IHa]; simpl; [reflexivity | now rewrite IHa]. }
  rewrite L, IH. reflexivity.
Qed.

Lemma mul_nonpositive (s : string) (n : Z) : n <= 0 -> mul s n = EmptyString.
Proof.
  intros H. unfold mul. destruct n; try reflexivity. lia.
Qed.

End PyStrFacts.

Section LoggerFacts.

Variable to_logformat : nat -> string.

Import PyStr PyStrFacts.

Lemma new_text_by_lines (prefix text : string) :
  exists l ls,
    split_lines text = l :: ls
    /\ join_lines (prefix_line prefix l :: map (prefix_line prefix) ls)
       = prefix_nonempty_lines prefix true text
    /\ join_lines (l :: map (prefix_line prefix) ls)
       = prefix_nonempty_lines prefix false text.
Proof.
  induction text as [|c rest IH].
  - exists EmptyString, []. repeat split.
  - destruct IH as (l & ls & Hs & Htrue & Hfalse).
    simpl. destruct (is_nl c) eqn:E.
    + exists EmptyString, (l :: ls). rewrite Hs. split; [reflexivity|].
      apply Ascii.eqb_eq in E. subst c.
      simpl map. unfold prefix_line at 1. simpl truthy. cbv iota.
      rewrite !join_lines_cons_cons. simpl. rewrite Htrue. split; reflexivity.
    + exists (String c l), ls. rewrite Hs. split; [reflexivity|].
      unfold prefix_line at 1. simpl truthy. cbv iota.
      rewrite join_lines_append_head, !join_lines_String_head, Hfalse.
      split; reflexivity.
Qed.

(** The text line 66 builds is the text of the specification. *)
Lemma new_text_refines (prefix text : string) :
  new_text prefix text = prefix_nonempty_lines prefix true text.
Proof.
  unfold new_text.
  destruct (new_text_by_lines prefix text) as (l & ls & Hs & Htrue & _).
  rewrite Hs. exact Htrue.
Qed.

(** The lines of the text one by one: an empty line stays empty, any other
    gets the prefix. *)
Lemma prefix_line_cases (prefix line : string) :
  (line = EmptyString -> prefix_line prefix line = EmptyString)
  /\ (line <> EmptyString -> prefix_line prefix line = (prefix ++ line)%string).
Proof.
  unfold prefix_line. destruct line; simpl; split; intros H; congruence.
Qed.

(** C8.  [write(text, to_stream, to_file, add_newlines)] returns, leaves the
    logger as it is, and passes on to the parent's [write]: first, when the
    stream flag (the argument, or the logger's [to_stream] when the argument
    is [None]) is on, the text itself for the stream alone; then, when the
    file flag (the argument, or the logger's [to_file]) is on, for the file
    alone the text in which every line that is not empty has in front of it
    the timestamp, [" - "] and the indentation token [indentation_level]
    times, and every empty line is left as it is. *)
Theorem write_destinations_and_prefix :
  forall (text : string) (to_stream' to_file' : option bool) (add_newlines : Z) (w : world),
    let self := log w in
    let stream := match to_stream' with Some b => b | None => to_stream self end in
    let file := match to_file' with Some b => b | None => to_file self end in
    let prefix :=
      (to_logformat (clock w) ++ " - "
         ++ repeat_nat (indentation_token self) (Z.to_nat (indentation_level self)))%string in
    exists w',
      write to_logformat text to_stream' to_file' add_newlines w = (Ok tt, w')
      /\ log w' = log w
      /\ trace w' =
           (trace w
              ++ (if stream then [PrintLog_write text true false add_newlines] else [])
              ++ (if file
                  then [PrintLog_write (prefix_nonempty_lines prefix true text)
                          false true add_newlines]
                  else []))%list
      /\ prefix_nonempty_lines prefix true text
         = join_lines (map (fun line => match line with
                                        | EmptyString => EmptyString
                                        | _ => (prefix ++ line)%string
                                        end) (split_lines text)).
Proof.
  intros text ts tf n w self stream file prefix.
  assert (Hlines : prefix_nonempty_lines prefix true text
                   = join_lines (map (fun line => match line with
                                                  | EmptyString => EmptyString
                                                  | _ => (prefix ++ line)%string
                                                  end) (split_lines text))).
  { rewrite <- new_text_refines. unfold new_text. f_equal.
    apply map_ext. intros [|c l]; reflexivity. }
  unfold write, bind, get_log, record, DateTime_now, ret, Maybe_else_, file_prefix.
  fold self. fold stream.
  destruct stream; cbn [log emit tick clock trace]; fold self; fold file;
    destruct file; eexists; (split; [reflexivity|]);
    cbn [log emit tick clock trace];
    (split; [reflexivity|]); (split; [|exact Hlines]);
    rewrite ?new_text_refines, <- ?app_assoc, ?app_nil_r; reflexivity.
Qed.

End LoggerFacts.

(** ** The two scopes of the logger *)

Section ScopeFacts.

Variable repr : pyval -> string.
Variable call : function -> list pyval -> list (string * pyval) -> M pyval.
Variable Timer_str : nat -> nat -> string.

Lemma indentation_block_returns (A : Type) (block : M A) (w w2 : world) (a : A) :
  block (indented w) = (Ok a, w2) ->
  with_contextmanager indentation block w
  = (Ok a, set_log (set_indentation_level (depth w2 - 1) (log w2)) w2).
Proof.
  intros H. unfold with_contextmanager, indentation. cbn.
  unfold indented, depth in H. rewrite H. reflexivity.
Qed.

Lemma indentation_block_raises (A : Type) (block : M A) (w w2 : world) (e : pyexc) :
  block (indented w) = (Raise e, w2) ->
  with_contextmanager indentation block w = (Raise e, w2).
Proof.
  intros H. unfold with_contextmanager, indentation. cbn.
  unfold indented, depth in H. rewrite H. reflexivity.
Qed.

Lemma script_wrapper_call_raises verbose spec args kwargs (w w2 : world) (e : pyexc) :
  (is_instance spec = true -> args <> []) ->
  call (func spec) args kwargs (at_call repr verbose spec args kwargs w) = (Raise e, w2) ->
  script_wrapper repr call Timer_str verbose spec args kwargs w = (Raise e, w2).
Proof.
  intros Hargs H.
  unfold script_wrapper, receiver_of, bind.
  assert (Hrecv : exists instance,
             (if is_instance spec
              then match args with
                   | a :: _ => ret a
                   | [] => raise (PyExc IndexError "tuple index out of range")
                   end
              else ret VNone) w = (Ok instance, w)).
  { destruct (is_instance spec); [|now eexists].
    destruct args; [now exfalso; apply Hargs | now eexists]. }
  destruct Hrecv as (instance & ->).
  unfold with_contextmanager at 1. cbn.
  unfold with_log, bind, PrintLog_call, update_log, with_object, print, get_log, record,
    ret, DateTime_now. cbn.
  unfold with_contextmanager, indentation, update_log. cbn.
  unfold at_call, indented, depth in H. cbn in H. rewrite H. reflexivity.
Qed.

Lemma script_wrapper_call_returns verbose spec args kwargs (w w2 : world) (r : pyval) :
  (is_instance spec = true -> args <> []) ->
  call (func spec) args kwargs (at_call repr verbose spec args kwargs w) = (Ok r, w2) ->
  exists w3,
    script_wrapper repr call Timer_str verbose spec args kwargs w = (Ok r, w3)
    /\ depth w3 = depth w2 - 1
    /\ to_stream (log w3) = to_stream (log w)
    /\ to_file (log w3) = to_file (log w).
Proof.
  intros Hargs H.
  unfold script_wrapper, receiver_of, bind.
  assert (Hrecv : exists instance,
             (if is_instance spec
              then match args with
                   | a :: _ => ret a
                   | [] => raise (PyExc IndexError "tuple index out of range")
                   end
              else ret VNone) w = (Ok instance, w)).
  { destruct (is_instance spec); [|now eexists].
    destruct args; [now exfalso; apply Hargs | now eexists]. }
  destruct Hrecv as (instance & ->).
  unfold with_contextmanager at 1. cbn.
  unfold with_log, bind, PrintLog_call, update_log, with_object, print, get_log, record,
    ret, DateTime_now. cbn.
  unfold with_contextmanager, indentation, update_log. cbn.
  unfold at_call, indented, depth in H. cbn in H. rewrite H. cbn.
  eexists. split; [reflexivity|]. cbn. repeat split.
Qed.

(** C1, as the code has it.  The block of an indentation scope starts one
    level deeper.  When it returns, the scope takes one level off the depth
    the block ends at, so a block that ends at the depth it started at
    leaves the depth of before the scope.  When it raises, the exception
    goes on and nothing is taken off: the depth stays where the block left
    it, one above the depth of before the scope for such a block.  The same
    in the profiler: the wrapped function starts one level deeper; when it
    returns the level is taken off and the channel flags are those of
    before the call; when it raises, the call raises the same exception in
    the world of the raise, the depth not lowered. *)
Theorem indentation_scope_exits :
  forall (A : Type) (block : M A) (w : world)
         (verbose : bool) (spec : FunctionSpec)
         (args : list pyval) (kwargs : list (string * pyval)),
    (is_instance spec = true -> args <> []) ->
    depth (indented w) = depth w + 1
    /\ match block (indented w) with
       | (Ok a, w2) =>
           exists w3,
             with_contextmanager indentation block w = (Ok a, w3)
             /\ depth w3 = depth w2 - 1
             /\ (depth w2 = depth (indented w) -> depth w3 = depth w)
       | (Raise e, w2) =>
           with_contextmanager indentation block w = (Raise e, w2)
           /\ (depth w2 = depth (indented w) -> depth w2 = depth w + 1)
       end
    /\ depth (at_call repr verbose spec args kwargs w) = depth w + 1
    /\ match call (func spec) args kwargs (at_call repr verbose spec args kwargs w) with
       | (Ok r, w2) =>
           exists w3,
             script_wrapper repr call Timer_str verbose spec args kwargs w = (Ok r, w3)
             /\ depth w3 = depth w2 - 1
             /\ to_stream (log w3) = to_stream (log w)
             /\ to_file (log w3) = to_file (log w)
       | (Raise e, w2) =>
           script_wrapper repr call Timer_str verbose spec args kwargs w = (Raise e, w2)
       end.
Proof.
  intros A block w verbose spec args kwargs Hargs.
  assert (Hin : depth (indented w) = depth w + 1) by reflexivity.
  split; [exact Hin|]. split; [|split; [reflexivity|]].
  - destruct (block (indented w)) as [[a|e] w2] eqn:Hb.
    + eexists. split; [apply indentation_block_returns; exact Hb|].
      split; [reflexivity|]. intros Heq. rewrite Hin in Heq.
      unfold depth in *. cbn. lia.
    + split; [now apply indentation_block_raises|]. intros Heq. lia.
  - destruct (call (func spec) args kwargs (at_call repr verbose spec args kwargs w))
      as [[r|e] w2] eqn:Hc.
    + now apply script_wrapper_call_returns.
    + now apply script_wrapper_call_raises.
Qed.

End ScopeFacts.

Section ScopeExamples.

(** C1 fails on a block that raises at once: the exception leaves the scope
    and the depth is one more than before it; so it is after a profiled
    call whose function raises. *)
Lemma indentation_kept_after_raise :
  let out := with_contextmanager indentation (raise boom : M unit) sample_world in
  let out' := script_wrapper sample_repr failing_call sample_timer false sample_spec
                [] [] sample_world in
  fst out = Raise boom
  /\ depth sample_world = 0
  /\ depth (snd out) = 1
  /\ depth (snd out) <> depth sample_world
  /\ fst out' = Raise boom
  /\ depth (snd out') = 1
  /\ depth (snd out') <> depth sample_world.
Proof. cbv. repeat split; discriminate. Qed.

Lemma indentation_scope_exits_witness :
  (is_instance sample_spec = true -> @nil pyval <> [])
  /\ with_contextmanager indentation (raise boom : M unit) sample_world
     = (Raise boom, indented sample_world)
  /\ script_wrapper sample_repr failing_call sample_timer false sample_spec
       [] [] sample_world
     = (Raise boom, at_call sample_repr false sample_spec [] [] sample_world).
Proof.
  assert (H : is_instance sample_spec = true -> @nil pyval <> [])
    by (simpl; discriminate).
  split; [exact H|].
  destruct (@indentation_scope_exits sample_repr failing_call sample_timer
              unit (raise boom) sample_world false sample_spec [] [] H)
    as (_ & Hscope & _ & Hcall).
  split; [exact (proj1 Hscope) | exact Hcall].
Defined.

(** Two scopes, one inside the other, and a write in the inner one: the file
    line has the token twice in front, and the depth is back at zero after
    both. *)
Example nested_indentation_prefix :
  with_contextmanager indentation
    (with_contextmanager indentation
       (write sample_to_logformat "x" (Some false) None 0)) sample_world
  = (Ok tt,
     mkWorld sample_log [] false 1
       [PrintLog_write ("2020-01-01 00:00:00 - " ++ "    " ++ "    " ++ "x") false true 0]).
Proof. reflexivity. Qed.

(** C2, as the code has it.  The block of the scope starts in the world of
    entry.  When it returns, the two flags are set to what they were on
    entry, whatever the block did to them, and nothing else changes.  When
    it raises, the exception goes on and the flags stay as the block left
    them. *)
Theorem reset_output_channels_scope_exits :
  forall (A : Type) (block : M A) (w : world),
    match block w with
    | (Ok a, w2) =>
        exists w3,
          with_contextmanager reset_output_channels_soon block w = (Ok a, w3)
          /\ to_stream (log w3) = to_stream (log w)
          /\ to_file (log w3) = to_file (log w)
          /\ w3 = set_log (set_channels (to_stream (log w)) (to_file (log w)) (log w2)) w2
    | (Raise e, w2) =>
        with_contextmanager reset_output_channels_soon block w = (Raise e, w2)
    end.
Proof.
  intros A block w.
  unfold with_contextmanager, reset_output_channels_soon. cbn.
  destruct (block w) as [[a|e] w2]; [|reflexivity].
  eexists. repeat split.
Qed.

(** C2 fails on a block that turns the channels off and raises: they are
    still off after the scope. *)
Lemma channels_kept_after_raise :
  let out := with_contextmanager reset_output_channels_soon muting_block sample_world in
  fst out = Raise boom
  /\ to_stream (log sample_world) = true
  /\ to_file (log sample_world) = true
  /\ to_stream (log (snd out)) = false
  /\ to_file (log (snd out)) = false
  /\ to_stream (log (snd out)) <> to_stream (log sample_world).
Proof. cbv. repeat split; discriminate. Qed.

End ScopeExamples.

(** ** The constructor wrapper *)

Section ConstructorFacts.

Variable to_logformat : nat -> string.
Variable format_exc : pyexc -> string.
Variable new_log_file : nat -> string.
Variable dump : world -> option pyexc.

Lemma traced_spec (e : pyexc) (w : world) :
  write to_logformat (format_exc e) (Some false) None 0 w = (Ok tt, traced to_logformat format_exc e w)
  /\ log (traced to_logformat format_exc e w) = log w
  /\ serialize (traced to_logformat format_exc e w) = serialize w
  /\ trace (traced to_logformat format_exc e w) =
       (trace w
          ++ (if to_file (log w)
              then [PrintLog_write
                      (prefix_nonempty_lines (file_prefix to_logformat (clock w) (log w))
                         true (format_exc e))
                      false true 0]
              else []))%list.
Proof.
  unfold traced, write, bind, get_log, record, DateTime_now, ret, Maybe_else_.
  cbn. destruct (to_file (log w)); cbn; rewrite ?new_text_refines, ?app_nil_r;
    repeat split.
Qed.

Lemma init_wrapper_unfolded func' args kwargs (w : world) :
  init_wrapper to_logformat format_exc new_log_file dump func' args kwargs w
  = match func' args kwargs (at_body new_log_file kwargs w) with
    | (Ok _, w2) =>
        if serialize w2
        then match dump w2 with
             | Some e' => (Raise e', w2)
             | None => (Ok tt, emit (Pickled (path (log w2))) w2)
             end
        else (Ok tt, w2)
    | (Raise e, w2) =>
        if isinstance_Exception e
        then if serialize w2
             then match dump (traced to_logformat format_exc e w2) with
                  | Some e' => (Raise e', traced to_logformat format_exc e w2)
                  | None =>
                      (Raise e, emit (Pickled (path (log (traced to_logformat format_exc e w2)))) (traced to_logformat format_exc e w2))
                  end
             else (Raise e, traced to_logformat format_exc e w2)
        else (Raise e, w2)
    end.
Proof.
  unfold init_wrapper, try_except_Exception, pickle_script, traced, write, at_body,
    bind, ret, raise, get_log, record, DateTime_now, update_log, Maybe_else_.
  cbn.
  match goal with
  | |- context [func' args kwargs ?W] =>
      destruct (func' args kwargs W) as [[r|e] w2]
  end; cbn.
  - destruct (serialize w2); [|reflexivity].
    destruct (dump w2); reflexivity.
  - destruct (isinstance_Exception e); [|reflexivity].
    destruct (to_file (log w2)); cbn;
      (destruct (serialize w2); [|reflexivity]);
      match goal with
      | |- context [dump ?W] => destruct (dump W)
      end; reflexivity.
Qed.

(** C3, as the code has it.  When the constructor body raises an instance
    of [Exception], the handler writes its trace with the stream turned off
    for that write: nothing goes to the stream, and the trace, prefixed
    line by line, goes to the file if the logger's [to_file] flag is on at
    that moment, as it is unless the body turned it off.  Then, with
    [serialize] off, the same exception is raised again; with [serialize]
    on and a pickling that succeeds, the script is pickled and the same
    exception is raised again.  Whatever the pickling does, the call raises
    and never returns a value. *)
Theorem init_wrapper_reraises :
  forall func' args kwargs (w w2 : world) (e : pyexc),
    func' args kwargs (at_body new_log_file kwargs w) = (Raise e, w2) ->
    isinstance_Exception e = true ->
    let run := init_wrapper to_logformat format_exc new_log_file dump func' args kwargs w in
    write to_logformat (format_exc e) (Some false) None 0 w2 = (Ok tt, traced to_logformat format_exc e w2)
    /\ trace (traced to_logformat format_exc e w2) =
         (trace w2
            ++ (if to_file (log w2)
                then [PrintLog_write
                        (prefix_nonempty_lines (file_prefix to_logformat (clock w2) (log w2))
                           true (format_exc e))
                        false true 0]
                else []))%list
    /\ (serialize w2 = false -> run = (Raise e, traced to_logformat format_exc e w2))
    /\ (serialize w2 = true -> dump (traced to_logformat format_exc e w2) = None ->
        run = (Raise e, emit (Pickled (path (log w2))) (traced to_logformat format_exc e w2)))
    /\ (exists e' w', run = (Raise e', w')).
Proof.
  intros func' args kwargs w w2 e Hbody Hexc run.
  destruct (traced_spec e w2) as (Hw & Hl & Hs & Ht).
  split; [exact Hw|]. split; [exact Ht|].
  subst run. rewrite init_wrapper_unfolded, Hbody, Hexc.
  split; [|split].
  - intros ->. reflexivity.
  - intros -> ->. rewrite Hl. reflexivity.
  - destruct (serialize w2); [|now eexists; eexists].
    destruct (dump (traced to_logformat format_exc e w2)); now eexists; eexists.
Qed.

(** C10.  When the constructor body raises an instance of [Exception],
    [serialize] is on and the pickling raises, the call ends with the
    exception of the pickling, in the world the trace was written in: the
    statement that raises the captured exception again is not reached and
    nothing is pickled. *)
Theorem init_wrapper_serialization_error_replaces :
  forall func' args kwargs (w w2 : world) (e e' : pyexc),
    func' args kwargs (at_body new_log_file kwargs w) = (Raise e, w2) ->
    isinstance_Exception e = true ->
    serialize w2 = true ->
    dump (traced to_logformat format_exc e w2) = Some e' ->
    let run := init_wrapper to_logformat format_exc new_log_file dump func' args kwargs w in
    run = (Raise e', traced to_logformat format_exc e w2)
    /\ (e' <> e -> fst run <> Raise e)
    /\ (forall f, ~ In (Pickled f) (trace w2) -> ~ In (Pickled f) (trace (snd run))).
Proof.
  intros func' args kwargs w w2 e e' Hbody Hexc Hser Hdump run.
  assert (Hrun : run = (Raise e', traced to_logformat format_exc e w2)).
  { subst run. now rewrite init_wrapper_unfolded, Hbody, Hexc, Hser, Hdump. }
  split; [exact Hrun|]. rewrite Hrun. cbn [fst snd]. split.
  - intros Hne Heq. apply Hne. now inversion Heq.
  - intros f Hnot Hin. apply Hnot.
    destruct (traced_spec e w2) as (_ & _ & _ & Ht). rewrite Ht in Hin.
    apply in_app_or in Hin. destruct Hin as [Hin|Hin]; [exact Hin|].
    destruct (to_file (log w2)); cbn in Hin; [|contradiction].
    destruct Hin as [Hin|[]]. discriminate.
Qed.

End ConstructorFacts.

Section ConstructorExamples.

Let run := init_wrapper sample_to_logformat sample_format_exc sample_new_log_file.

(** C3 fails in three runs.  With [serialize] on and a pickling that
    raises, the caller gets the exception of the pickling and not the one
    the constructor raised.  A [KeyboardInterrupt] of the constructor is
    not caught: no trace is written and nothing is pickled although
    [serialize] is on.  A constructor that turns the file channel off and
    raises has its trace written nowhere. *)
Lemma captured_exception_not_always_reraised :
  fst (run dump_fails failing_init [] [] serializing_world) = Raise pickling_error
  /\ fst (run dump_fails failing_init [] [] serializing_world) <> Raise boom
  /\ fst (run dump_succeeds interrupted_init [] [] serializing_world) = Raise interrupt
  /\ trace (snd (run dump_succeeds interrupted_init [] [] serializing_world)) = []
  /\ fst (run dump_succeeds muting_init [] [] sample_world) = Raise boom
  /\ trace (snd (run dump_succeeds muting_init [] [] sample_world)) = [].
Proof. cbv. repeat split; discriminate. Qed.

Lemma init_wrapper_reraises_witness :
  failing_init [] [] (at_body sample_new_log_file [] serializing_world)
  = (Raise boom, at_body sample_new_log_file [] serializing_world)
  /\ isinstance_Exception boom = true
  /\ run dump_succeeds failing_init [] [] serializing_world
     = (Raise boom,
        emit (Pickled "logs/run.txt")
          (traced sample_to_logformat sample_format_exc boom
             (at_body sample_new_log_file [] serializing_world))).
Proof.
  assert (Hbody : failing_init [] [] (at_body sample_new_log_file [] serializing_world)
                  = (Raise boom, at_body sample_new_log_file [] serializing_world))
    by reflexivity.
  assert (Hexc : isinstance_Exception boom = true) by reflexivity.
  split; [exact Hbody|]. split; [exact Hexc|].
  destruct (@init_wrapper_reraises sample_to_logformat sample_format_exc
              sample_new_log_file dump_succeeds failing_init [] []
              serializing_world _ boom Hbody Hexc)
    as (_ & _ & _ & Hpickled & _).
  apply Hpickled; reflexivity.
Defined.

Lemma init_wrapper_serialization_error_replaces_witness :
  failing_init [] [] (at_body sample_new_log_file [] serializing_world)
  = (Raise boom, at_body sample_new_log_file [] serializing_world)
  /\ isinstance_Exception boom = true
  /\ serialize (at_body sample_new_log_file [] serializing_world) = true
  /\ dump_fails (traced sample_to_logformat sample_format_exc boom
                   (at_body sample_new_log_file [] serializing_world))
     = Some pickling_error
  /\ run dump_fails failing_init [] [] serializing_world
     = (Raise pickling_error,
        traced sample_to_logformat sample_format_exc boom
          (at_body sample_new_log_file [] serializing_world)).
Proof.
  assert (Hbody : failing_init [] [] (at_body sample_new_log_file [] serializing_world)
                  = (Raise boom, at_body sample_new_log_file [] serializing_world))
    by reflexivity.
  assert (Hexc : isinstance_Exception boom = true) by reflexivity.
  assert (Hser : serialize (at_body sample_new_log_file [] serializing_world) = true)
    by reflexivity.
  assert (Hdump : dump_fails (traced sample_to_logformat sample_format_exc boom
                                (at_body sample_new_log_file [] serializing_world))
                  = Some pickling_error) by reflexivity.
  repeat (split; [assumption|]).
  exact (proj1 (@init_wrapper_serialization_error_replaces sample_to_logformat
                  sample_format_exc sample_new_log_file dump_fails failing_init [] []
                  serializing_world _ boom pickling_error Hbody Hexc Hser Hdump)).
Defined.

End ConstructorExamples.

(** ** The function classifier *)

Section ClassifierFacts.

Variable repr_FunctionSpec : FunctionSpec -> string.


(** C5 on the code.  A function is classified as an instance method, a
    [staticmethod] object as static, a [classmethod] object as class, and a
    bound method, which has a [__func__], as unknown.  Any other object has
    no [__func__]: line 25 raises [AttributeError] and the object gets no
    call-kind, unknown or other. *)
Theorem FunctionSpec_init_classification :
  forall (parent : pyclass) (nm : string),
    (forall f, exists spec,
        FunctionSpec_init parent nm (Function f) = Ok spec /\ type spec = INSTANCE)
    /\ (forall attrs f, exists spec,
           FunctionSpec_init parent nm (StaticMethod attrs f) = Ok spec
           /\ type spec = STATIC)
    /\ (forall attrs f, exists spec,
           FunctionSpec_init parent nm (ClassMethod attrs f) = Ok spec
           /\ type spec = CLASS)
    /\ (forall receiver f, exists spec,
           FunctionSpec_init parent nm (BoundMethod receiver f) = Ok spec
           /\ type spec = UNKNOWN)
    /\ (forall t,
           FunctionSpec_init parent nm (Object t)
           = Raise (PyExc AttributeError
                      ("'" ++ t ++ "' object has no attribute '__func__'"))).
Proof.
  intros parent nm. repeat split; intros; try (eexists; split; reflexivity).
Qed.

(** C6.  For a record the classifier made from a member, [wrap] of a new
    function fails with a [ValueError] whose message holds the [repr] of
    the record when the call-kind is unknown; for the three other
    call-kinds it returns an object of the kind of the member (function,
    [staticmethod], [classmethod]), which supplies the same implicit first
    argument as the member however it is reached, runs the new function,
    and carries the name, the qualified name, the module and the docstring
    of the record's original function. *)
Theorem wrap_keeps_calling_convention :
  forall (parent : pyclass) (nm : string) (ref : pyobject) (spec : FunctionSpec)
         (new_callable : function),
    FunctionSpec_init parent nm ref = Ok spec ->
    match type spec with
    | UNKNOWN =>
        wrap repr_FunctionSpec spec new_callable
        = Raise (PyExc ValueError
                   ("Don't know function type of " ++ repr_FunctionSpec spec ++ "."))
    | _ =>
        exists replacement,
          wrap repr_FunctionSpec spec new_callable = Ok replacement
          /\ kind_of replacement = type spec
          /\ kind_of replacement = kind_of ref
          /\ (forall c a,
                 implicit_first_argument c replacement a
                 = implicit_first_argument c ref a)
          /\ (forall c a,
                 option_map (fun p => fn_code (snd p)) (calling_convention c replacement a)
                 = Some (fn_code new_callable))
          /\ own_metadata replacement = Some (fn_meta (func spec))
          /\ option_map md_name (own_metadata replacement)
             = Some (md_name (fn_meta (func spec)))
          /\ option_map md_doc (own_metadata replacement)
             = Some (md_doc (fn_meta (func spec)))
    end.
Proof.
  intros parent nm ref spec g H.
  unfold FunctionSpec_init in H.
  destruct ref as [f|attrs f|attrs f|receiver f|t]; cbn in H;
    inversion H; subst; clear H; cbn;
    try reflexivity;
    (eexists; split; [reflexivity|]; cbn; repeat split;
     intros c a; try destruct a; reflexivity).
Qed.

End ClassifierFacts.

Lemma wrap_keeps_calling_convention_witness :
  FunctionSpec_init sample_class "run" sample_static = Ok sample_spec
  /\ wrap sample_repr_FunctionSpec sample_spec sample_wrapper
     = Ok (StaticMethod (Some (fn_meta sample_function)) sample_wrapper).
Proof.
  assert (H : FunctionSpec_init sample_class "run" sample_static = Ok sample_spec)
    by reflexivity.
  split; [exact H|].
  destruct (@wrap_keeps_calling_convention sample_repr_FunctionSpec sample_class "run"
              sample_static sample_spec sample_wrapper H)
    as (replacement & Hwrap & _).
  rewrite Hwrap. f_equal.
  cbv in Hwrap. now inversion Hwrap.
Defined.

(** ** The widget mapper *)

Module WidgetFacts.
Import Widget WidgetSamples.

Section MapperFacts.

Variable str_Argument : Argument -> string.

Lemma from_argument_binds (arg : Argument) (h : WidgetHandler) :
  from_argument str_Argument arg = Ok h -> argument h = Some arg.
Proof.
  unfold from_argument.
  match goal with
  | |- match ?X with _ => _ end = _ -> _ => destruct X as [handler|e]
  end; intros H; inversion H; reflexivity.
Qed.

Lemma from_argument_with_choices (arg : Argument) (cs : list pyval) :
  choices arg = Some cs ->
  from_argument str_Argument arg = Ok (mkHandler (DropDown cs (default arg)) (Some arg)).
Proof. intros H. unfold from_argument. rewrite H. reflexivity. Qed.

(** C4.  A descriptor whose choice set is not empty, of whatever class,
    is given a [DropDown] made from its choices and its default, bound to
    the descriptor. *)
Theorem from_argument_choices_first :
  forall (arg : Argument) (cs : list pyval),
    choices arg = Some cs ->
    cs <> [] ->
    from_argument str_Argument arg
    = Ok (mkHandler (DropDown cs (default arg)) (Some arg)).
Proof. intros arg cs H _. now apply from_argument_with_choices. Qed.

(** C7.  A string descriptor without choices is given a [Text] with its
    magnitude when the magnitude is there and above 1, and an [Entry]
    when the magnitude is missing or at most 1; each bound to the
    descriptor. *)
Theorem from_argument_string_magnitude :
  forall (arg : Argument),
    arg_class arg = StringArgument ->
    choices arg = None ->
    (forall m, widget_magnitude arg = Some m -> 1 < m ->
               from_argument str_Argument arg
               = Ok (mkHandler (Text (default arg) (Some m)) (Some arg)))
    /\ (widget_magnitude arg = None ->
        from_argument str_Argument arg = Ok (mkHandler (Entry (default arg)) (Some arg)))
    /\ (forall m, widget_magnitude arg = Some m -> m <= 1 ->
                  from_argument str_Argument arg
                  = Ok (mkHandler (Entry (default arg)) (Some arg))).
Proof.
  intros arg Hclass Hchoices.
  unfold from_argument, isinstance. rewrite Hchoices, Hclass. cbn.
  repeat split.
  - intros m -> Hm. cbn.
    replace (m =? 0) with false by (symmetry; apply Z.eqb_neq; lia).
    replace (1 <? m) with true by (symmetry; apply Z.ltb_lt; lia).
    reflexivity.
  - intros ->. reflexivity.
  - intros m -> Hm. cbn.
    replace (1 <? m) with false by (symmetry; apply Z.ltb_ge; lia).
    rewrite andb_false_r. reflexivity.
Qed.

(** C9.  A descriptor without choices and of none of the ten classes
    makes the call raise a [TypeError] whose message holds the name of
    its class and its text, and no handle is returned.  Every other
    descriptor is given a handle, and every handle the call returns is
    bound to the descriptor it was made for. *)
Theorem from_argument_unsupported_or_bound :
  forall (arg : Argument),
    (forall n, choices arg = None -> arg_class arg = OtherArgument n ->
               from_argument str_Argument arg
               = Raise (PyExc TypeError
                          ("Don't know how to handle " ++ n ++ ": " ++ str_Argument arg)))
    /\ ((choices arg <> None \/ forall n, arg_class arg <> OtherArgument n) ->
        exists h, from_argument str_Argument arg = Ok h)
    /\ (forall h, from_argument str_Argument arg = Ok h -> argument h = Some arg).
Proof.
  intros arg. split; [|split].
  - intros n Hchoices Hclass.
    unfold from_argument, isinstance, type_name. rewrite Hchoices, Hclass. reflexivity.
  - intros H. unfold from_argument, isinstance.
    destruct (choices arg) as [cs|]; [now eexists|].
    destruct H as [H|H]; [congruence|].
    destruct (arg_class arg) eqn:Hclass; cbn;
      try (now eexists);
      try (destruct (deep_is_str_bool (deep_type arg)); now eexists);
      try (destruct (magnitude_above_one (widget_magnitude arg)); now eexists).
    exfalso. now apply (H class_name).
  - apply from_argument_binds.
Qed.

End MapperFacts.

Lemma from_argument_choices_first_witness :
  choices boolean_with_choices = Some [VBool true; VBool false]
  /\ [VBool true; VBool false] <> []
  /\ from_argument sample_str boolean_with_choices
     = Ok (mkHandler (DropDown [VBool true; VBool false] (VBool true))
             (Some boolean_with_choices)).
Proof.
  assert (H1 : choices boolean_with_choices = Some [VBool true; VBool false])
    by reflexivity.
  assert (H2 : [VBool true; VBool false] <> []) by discriminate.
  split; [exact H1|]. split; [exact H2|].
  exact (@from_argument_choices_first sample_str boolean_with_choices _ H1 H2).
Defined.

Lemma from_argument_string_magnitude_witness :
  arg_class (string_of_magnitude 2) = StringArgument
  /\ choices (string_of_magnitude 2) = None
  /\ from_argument sample_str (string_of_magnitude 2)
     = Ok (mkHandler (Text (VStr "text") (Some 2)) (Some (string_of_magnitude 2)))
  /\ from_argument sample_str (string_of_magnitude 1)
     = Ok (mkHandler (Entry (VStr "text")) (Some (string_of_magnitude 1))).
Proof.
  split; [reflexivity|]. split; [reflexivity|]. split.
  - apply (proj1 (@from_argument_string_magnitude sample_str (string_of_magnitude 2)
                    eq_refl eq_refl) 2); [reflexivity | lia].
  - apply (proj2 (proj2 (@from_argument_string_magnitude sample_str
                           (string_of_magnitude 1) eq_refl eq_refl)) 1);
      [reflexivity | lia].
Defined.

Lemma from_argument_unsupported_or_bound_witness :
  choices unknown_descriptor = None
  /\ arg_class unknown_descriptor = OtherArgument "TableArgument"
  /\ from_argument sample_str unknown_descriptor
     = Raise (PyExc TypeError
                "Don't know how to handle TableArgument: Argument(TableArgument)").
Proof.
  split; [reflexivity|]. split; [reflexivity|].
  exact (proj1 (@from_argument_unsupported_or_bound sample_str unknown_descriptor)
           "TableArgument" eq_refl eq_refl).
Defined.

End WidgetFacts.

(** * Further properties *)

(** ** The file text and the destinations of a write *)

Section WriteFacts.

Variable to_logformat : nat -> string.

Import PyStr PyStrFacts.

Lemma length_append (a b : string) :
  String.length (a ++ b) = (String.length a + String.length b)%nat.
Proof. induction a as [|x a IH]; simpl; [reflexivity | now rewrite IH]. Qed.

Lemma length_prefix_line (prefix line : string) :
  String.length (prefix_line prefix line)
  = (String.length line + (if truthy line then String.length prefix else 0))%nat.
Proof.
  unfold prefix_line. destruct line as [|c l]; simpl truthy; cbv iota.
  - reflexivity.
  - rewrite length_append. lia.
Qed.

Lemma length_prefixed_lines (prefix : string) (lines : list string) :
  String.length (join_lines (map (prefix_line prefix) lines))
  = (String.length (join_lines lines)
     + List.length (filter truthy lines) * String.length prefix)%nat.
Proof.
  induction lines as [|x [|y rest] IH].
  - reflexivity.
  - simpl map. simpl filter. unfold join_lines. simpl String.concat.
    rewrite length_prefix_line. destruct (truthy x); simpl List.length; lia.
  - change (map (prefix_line prefix) (x :: y :: rest))
      with (prefix_line prefix x :: prefix_line prefix y :: map (prefix_line prefix) rest).
    rewrite !join_lines_cons_cons, !length_append.
    change (prefix_line prefix y :: map (prefix_line prefix) rest)
      with (map (prefix_line prefix) (y :: rest)).
    rewrite IH, length_prefix_line.
    change (filter truthy (x :: y :: rest))
      with (if truthy x then x :: filter truthy (y :: rest) else filter truthy (y :: rest)).
    destruct (truthy x); simpl List.length; lia.
Qed.

(** X1.  The text written to the file is longer than the text given by the
    length of the prefix for every line that is not empty, and by nothing
    else. *)
Theorem new_text_length :
  forall (prefix text : string),
    String.length (new_text prefix text)
    = (String.length text + nonempty_lines text * String.length prefix)%nat.
Proof.
  intros prefix text. unfold new_text, nonempty_lines.
  rewrite length_prefixed_lines, join_split_lines. reflexivity.
Qed.

Lemma map_prefix_line_empty (prefix : string) (lines : list string) :
  (forall line, In line lines -> line = EmptyString) ->
  map (prefix_line prefix) lines = lines.
Proof.
  induction lines as [|x rest IH]; intros H; [reflexivity|].
  simpl. rewrite IH by (intros l Hl; apply H; now right).
  rewrite (H x) by now left. reflexivity.
Qed.

(** X2.  A text all of whose lines are empty, the empty text and the single
    newline that [print] sends after its text among them, goes to the file
    as it is: no timestamp and no indentation. *)
Theorem new_text_of_empty_lines :
  forall (prefix text : string),
    (forall line, In line (split_lines text) -> line = EmptyString) ->
    new_text prefix text = text.
Proof.
  intros prefix text H. unfold new_text.
  rewrite map_prefix_line_empty by exact H. apply join_split_lines.
Qed.

Lemma new_text_of_empty_lines_witness :
  (forall line, In line (split_lines (newline ++ newline)) -> line = EmptyString)
  /\ new_text "12:00 - " (newline ++ newline) = (newline ++ newline)%string.
Proof.
  assert (H : forall line, In line (split_lines (newline ++ newline)) -> line = EmptyString).
  { intros line Hin. simpl in Hin.
    destruct Hin as [<-|[<-|[<-|[]]]]; reflexivity. }
  split; [exact H|].
  exact (@new_text_of_empty_lines "12:00 - " (newline ++ newline) H).
Defined.

(** The world a write leaves. *)
Lemma write_run (text : string) (to_stream' to_file' : option bool) (n : Z) (w : world) :
  write to_logformat text to_stream' to_file' n w
  = (Ok tt,
     let stream := Maybe_else_ to_stream' (to_stream (log w)) in
     let file := Maybe_else_ to_file' (to_file (log w)) in
     mkWorld (log w) (arguments w) (serialize w)
       (if file then S (clock w) else clock w)
       (trace w
          ++ (if stream then [PrintLog_write text true false n] else [])
          ++ (if file
              then [PrintLog_write (new_text (file_prefix to_logformat (clock w) (log w)) text)
                      false true n]
              else []))%list).
Proof.
  destruct w as [l a s c t].
  unfold write, bind, get_log, record, DateTime_now, ret, emit, tick.
  cbn [log clock trace arguments serialize].
  destruct (Maybe_else_ to_stream' (to_stream l));
    cbn [log clock trace arguments serialize];
    destruct (Maybe_else_ to_file' (to_file l));
    cbn [log clock trace arguments serialize app];
    rewrite <- ?app_assoc, ?app_nil_r; reflexivity.
Qed.

(** X3.  A write changes nothing of the logger or of the script; it reads
    the clock once when the file is a destination and not at all otherwise;
    with both destinations off it leaves the world as it found it. *)
Theorem write_touches_trace_and_clock_only :
  forall (text : string) (to_stream' to_file' : option bool) (n : Z) (w : world),
    let stream := Maybe_else_ to_stream' (to_stream (log w)) in
    let file := Maybe_else_ to_file' (to_file (log w)) in
    let w' := snd (write to_logformat text to_stream' to_file' n w) in
    fst (write to_logformat text to_stream' to_file' n w) = Ok tt
    /\ log w' = log w
    /\ arguments w' = arguments w
    /\ serialize w' = serialize w
    /\ clock w' = (if file then S (clock w) else clock w)
    /\ List.length (trace w')
       = (List.length (trace w) + (if stream then 1 else 0) + (if file then 1 else 0))%nat
    /\ (stream = false -> file = false -> w' = w).
Proof.
  intros text ts tf n w stream file w'.
  subst w'. rewrite write_run. cbn [fst snd]. fold stream. fold file.
  cbn [log arguments serialize clock trace].
  repeat split.
  - rewrite !length_app. destruct stream, file; simpl; lia.
  - intros -> ->. rewrite app_nil_r. destruct w; reflexivity.
Qed.

End WriteFacts.

(** ** Scopes inside scopes *)

Section NestingFacts.

Variable to_logformat : nat -> string.

Lemma deeper_0 (w : world) : deeper 0 w = w.
Proof.
  destruct w as [[p a s f t l] ar se c tr]. unfold deeper, depth, set_log,
    set_indentation_level. cbn. now rewrite Z.add_0_r.
Qed.

Lemma deeper_deeper (a b : Z) (w : world) : deeper a (deeper b w) = deeper (b + a) w.
Proof.
  destruct w as [[p ac s f t l] ar se c tr]. unfold deeper, depth, set_log,
    set_indentation_level. cbn. now rewrite Z.add_assoc.
Qed.

Lemma nested_indentation_run (A : Type) (n : nat) (block : M A) (w : world) :
  nested_indentation n block w
  = match block (deeper (Z.of_nat n) w) with
    | (Ok a, w2) => (Ok a, deeper (- Z.of_nat n) w2)
    | (Raise e, w2) => (Raise e, w2)
    end.
Proof.
  revert w. induction n as [|n IH]; intros w.
  - cbn [nested_indentation Z.of_nat Z.opp]. rewrite deeper_0.
    destruct (block w) as [[a|e] w2]; [now rewrite deeper_0 | reflexivity].
  - cbn [nested_indentation].
    assert (Hw : deeper (Z.of_nat (S n)) w = deeper (Z.of_nat n) (indented w)).
    { change (indented w) with (deeper 1 w). rewrite deeper_deeper. f_equal. lia. }
    rewrite Hw.
    pose proof (IH (indented w)) as Hn.
    destruct (block (deeper (Z.of_nat n) (indented w))) as [[a|e] w2].
    + rewrite (indentation_block_returns _ _ Hn).
      change (set_log (set_indentation_level (depth (deeper (- Z.of_nat n) w2) - 1)
                         (log (deeper (- Z.of_nat n) w2))) (deeper (- Z.of_nat n) w2))
        with (deeper (-1) (deeper (- Z.of_nat n) w2)).
      rewrite deeper_deeper. do 2 f_equal. lia.
    + now rewrite (indentation_block_raises _ _ Hn).
Qed.

(** X4.  A block inside [n] indentation scopes starts [n] levels deeper.
    When it returns, the scopes take [n] levels off the depth it ends at;
    when it raises, the exception leaves all of them and none takes its
    level off, so a block that keeps the depth leaves it [n] too high. *)
Theorem nested_indentation_exits :
  forall (A : Type) (n : nat) (block : M A) (w : world),
    depth (deeper (Z.of_nat n) w) = depth w + Z.of_nat n
    /\ match block (deeper (Z.of_nat n) w) with
       | (Ok a, w2) =>
           exists w3,
             nested_indentation n block w = (Ok a, w3)
             /\ depth w3 = depth w2 - Z.of_nat n
       | (Raise e, w2) =>
           nested_indentation n block w = (Raise e, w2)
           /\ (depth w2 = depth (deeper (Z.of_nat n) w) -> depth w2 = depth w + Z.of_nat n)
       end.
Proof.
  intros A n block w. split; [reflexivity|].
  rewrite nested_indentation_run.
  destruct (block (deeper (Z.of_nat n) w)) as [[a|e] w2].
  - eexists. split; [reflexivity|]. unfold deeper, depth. cbn. lia.
  - split; [reflexivity|]. intros ->. reflexivity.
Qed.

(** X5.  A write inside [n] indentation scopes puts the token in front of
    the lines of the file [n] times more than the depth of before the scopes,
    and the logger is afterwards as it was before them. *)
Theorem write_in_nested_indentation :
  forall (n : nat) (text : string) (to_stream' to_file' : option bool) (k : Z) (w : world),
    0 <= depth w ->
    let stream := Maybe_else_ to_stream' (to_stream (log w)) in
    let file := Maybe_else_ to_file' (to_file (log w)) in
    let prefix :=
      (to_logformat (clock w) ++ " - "
         ++ PyStr.repeat_nat (indentation_token (log w)) (Z.to_nat (depth w) + n))%string in
    exists w',
      nested_indentation n (write to_logformat text to_stream' to_file' k) w = (Ok tt, w')
      /\ log w' = log w
      /\ trace w' =
           (trace w
              ++ (if stream then [PrintLog_write text true false k] else [])
              ++ (if file then [PrintLog_write (new_text prefix text) false true k] else []))%list.
Proof.
  intros n text ts tf k w Hdepth stream file prefix.
  rewrite nested_indentation_run, write_run.
  eexists. split; [reflexivity|].
  destruct w as [[p ac s f t l] ar se c tr].
  unfold deeper, depth, set_log, set_indentation_level, file_prefix, PyStr.mul in *.
  cbn in *. split.
  - do 2 f_equal. lia.
  - subst prefix stream file. cbn.
    replace (Z.to_nat (l + Z.of_nat n)) with (Z.to_nat l + n)%nat by lia.
    reflexivity.
Qed.

End NestingFacts.

Lemma write_in_nested_indentation_witness :
  0 <= depth sample_world
  /\ nested_indentation 3 (write sample_to_logformat "x" (Some false) None 0) sample_world
     = (Ok tt,
        mkWorld sample_log [] false 1
          [PrintLog_write
             ("2020-01-01 00:00:00 - " ++ "    " ++ "    " ++ "    " ++ "x") false true 0]).
Proof.
  assert (H : 0 <= depth sample_world) by (cbv; discriminate).
  split; [exact H|].
  destruct (@write_in_nested_indentation sample_to_logformat 3 "x" (Some false) None 0
              sample_world H) as (w' & Hrun & _).
  rewrite Hrun. f_equal.
  cbv in Hrun. now inversion Hrun.
Defined.


(** ** A profiled call *)

Section ProfiledCallFacts.

Variable repr : pyval -> string.
Variable call : function -> list pyval -> list (string * pyval) -> M pyval.
Variable Timer_str : nat -> nat -> string.

(** X6.  An instance method called with no positional argument at all makes
    the wrapper raise [IndexError] on line 90, before it prints or calls
    anything: the world is as it was. *)
Theorem script_wrapper_without_receiver :
  forall (verbose : bool) (spec : FunctionSpec) (kwargs : list (string * pyval)) (w : world),
    is_instance spec = true ->
    script_wrapper repr call Timer_str verbose spec [] kwargs w
    = (Raise (PyExc IndexError "tuple index out of range"), w).
Proof.
  intros verbose spec kwargs w H.
  unfold script_wrapper, receiver_of, bind, raise. rewrite H. reflexivity.
Qed.

Lemma script_wrapper_run verbose spec args kwargs (w : world) :
  (is_instance spec = true -> args <> []) ->
  script_wrapper repr call Timer_str verbose spec args kwargs w
  = match call (func spec) args kwargs (at_call repr verbose spec args kwargs w) with
    | (Ok r, w2) =>
        (Ok r,
         mkWorld
           (mkNestedPrintLog (path (log w2)) (active (log w2))
              (to_stream (log w)) (to_file (log w))
              (indentation_token (log w2)) (depth w2 - 1))
           (arguments w2) (serialize w2) (S (clock w2))
           (trace w2
              ++ [Printed (finish_line repr Timer_str spec (clock w) (clock w2) r
                             (receiver spec args))
                    verbose (to_file (log w2))])%list)
    | (Raise e, w2) => (Raise e, w2)
    end.
Proof.
  intros Hargs.
  unfold script_wrapper, receiver_of, receiver, bind.
  assert (Hrecv : (if is_instance spec
                   then match args with
                        | a :: _ => ret a
                        | [] => raise (PyExc IndexError "tuple index out of range")
                        end
                   else ret VNone) w
                  = (Ok (if is_instance spec then hd VNone args else VNone), w)).
  { destruct (is_instance spec); [|reflexivity].
    destruct args; [now exfalso; apply Hargs | reflexivity]. }
  rewrite Hrecv.
  unfold with_contextmanager at 1. cbn.
  unfold with_log, bind, PrintLog_call, update_log, with_object, print, get_log, record,
    ret, DateTime_now. cbn.
  unfold with_contextmanager, indentation, update_log. cbn.
  unfold at_call, indented, depth. cbn.
  match goal with
  | |- context [call ?f ?a ?k ?W] => destruct (call f a k W) as [[r|e] w2]
  end; reflexivity.
Qed.


Lemma append_empty_r (a : string) : (a ++ "" = a)%string.
Proof. induction a as [|x a IH]; simpl; [reflexivity | now rewrite IH]. Qed.

(** X8.  The arguments of the start line.  Without keyword arguments they
    are the positional ones, and with no positional ones to show they are the
    keyword ones: no separator is left over at either end.  The receiver of
    an instance or class method is not among them. *)
Theorem render_arguments_edges :
  forall (spec : FunctionSpec) (args : list pyval) (kwargs : list (string * pyval)),
    let shown := skipn (if is_bound spec then 1 else 0)%nat args in
    render_arguments repr spec args [] = comma_join (map repr shown)
    /\ (shown = [] ->
        render_arguments repr spec args kwargs
        = comma_join (map (fun kv => fst kv ++ "=" ++ repr (snd kv)) kwargs))
    /\ (is_bound spec = true ->
        forall a b,
          render_arguments repr spec (a :: args) kwargs
          = render_arguments repr spec (b :: args) kwargs).
Proof.
  intros spec args kwargs shown. unfold render_arguments. fold shown.
  split; [|split].
  - cbn [map comma_join String.concat PyStr.truthy].
    rewrite andb_false_r. cbn. now rewrite append_empty_r.
  - intros ->. reflexivity.
  - intros -> a b. reflexivity.
Qed.

End ProfiledCallFacts.

Lemma script_wrapper_without_receiver_witness :
  is_instance sample_method = true
  /\ script_wrapper sample_repr failing_call sample_timer true sample_method [] [] sample_world
     = (Raise (PyExc IndexError "tuple index out of range"), sample_world).
Proof.
  split; [reflexivity|].
  exact (@script_wrapper_without_receiver sample_repr failing_call sample_timer true
           sample_method [] sample_world eq_refl).
Defined.


Lemma render_arguments_edges_witness :
  is_bound sample_method = true
  /\ render_arguments sample_repr sample_method [VStr "job"; VBool true] [] = "True"
  /\ render_arguments sample_repr sample_method [VStr "job"] [("fast", VBool false)]
     = "fast=False".
Proof.
  split; [reflexivity|].
  destruct (@render_arguments_edges sample_repr sample_method [VStr "job"; VBool true] [])
    as (H1 & _).
  destruct (@render_arguments_edges sample_repr sample_method [VStr "job"]
              [("fast", VBool false)]) as (_ & H2 & _).
  split; [rewrite H1; reflexivity | rewrite H2; reflexivity].
Defined.

(** ** The constructor wrapper, on its other paths *)

Section ConstructorPaths.

Variable to_logformat : nat -> string.
Variable format_exc : pyexc -> string.
Variable new_log_file : nat -> string.
Variable dump : world -> option pyexc.
Variable repr : pyval -> string.
Variable call : function -> list pyval -> list (string * pyval) -> M pyval.
Variable Timer_str : nat -> nat -> string.

(** X9.  The constructor body starts with the keyword arguments kept on the
    script and a new logger, at depth zero and with both channels on,
    whatever logger there was.  When it returns, nothing is written for it
    and [serialize] is read in the world it leaves: a body that turns it on
    has the script pickled, one that turns it off has not.  An exception of
    the pickling is the exception of the call. *)
Theorem init_wrapper_body_returns :
  forall func' args kwargs (w w2 : world) (r : pyval),
    func' args kwargs (at_body new_log_file kwargs w) = (Ok r, w2) ->
    arguments (at_body new_log_file kwargs w) = kwargs
    /\ log (at_body new_log_file kwargs w) = NestedPrintLog_init (new_log_file (clock w))
    /\ depth (at_body new_log_file kwargs w) = 0
    /\ init_wrapper to_logformat format_exc new_log_file dump func' args kwargs w
       = if serialize w2
         then match dump w2 with
              | Some e => (Raise e, w2)
              | None => (Ok tt, emit (Pickled (path (log w2))) w2)
              end
         else (Ok tt, w2).
Proof.
  intros func' args kwargs w w2 r Hbody.
  repeat (split; [reflexivity|]).
  now rewrite init_wrapper_unfolded, Hbody.
Qed.

(** X10.  An exception of the constructor body that is no instance of
    [Exception] leaves the wrapper at once: the world is the one of the
    raise, with no trace written and nothing pickled, whatever [serialize]
    says. *)
Theorem init_wrapper_passes_base_exceptions :
  forall func' args kwargs (w w2 : world) (e : pyexc),
    func' args kwargs (at_body new_log_file kwargs w) = (Raise e, w2) ->
    isinstance_Exception e = false ->
    init_wrapper to_logformat format_exc new_log_file dump func' args kwargs w
    = (Raise e, w2).
Proof.
  intros func' args kwargs w w2 e Hbody Hexc.
  now rewrite init_wrapper_unfolded, Hbody, Hexc.
Qed.

(** X11.  A profiled constructor whose function raises an [Exception] and
    leaves the logger alone.  The trace is written one level deep, its lines
    that are not empty behind the timestamp and one indentation token, to the
    file only; the call raises; and the logger is left one level deep with
    the stream on, whatever [verbose] says. *)
Theorem init_wrapper_of_profiled_constructor :
  forall (verbose : bool) (spec : FunctionSpec) (args : list pyval)
         (kwargs : list (string * pyval)) (w w2 : world) (e : pyexc),
    (is_instance spec = true -> args <> []) ->
    let body := at_body new_log_file kwargs w in
    call (func spec) args kwargs (at_call repr verbose spec args kwargs body) = (Raise e, w2) ->
    log w2 = log (at_call repr verbose spec args kwargs body) ->
    isinstance_Exception e = true ->
    exists e' w3 tail,
      init_wrapper to_logformat format_exc new_log_file dump
        (script_wrapper repr call Timer_str verbose spec) args kwargs w = (Raise e', w3)
      /\ depth w3 = 1
      /\ to_stream (log w3) = true
      /\ to_file (log w3) = true
      /\ trace w3
         = (trace w2
              ++ [PrintLog_write
                    (new_text (to_logformat (clock w2) ++ " - " ++ "    ") (format_exc e))
                    false true 0]
              ++ tail)%list.
Proof.
  intros verbose spec args kwargs w w2 e Hargs body Hcall Hlog Hexc.
  assert (Hbody : script_wrapper repr call Timer_str verbose spec args kwargs body
                  = (Raise e, w2)).
  { rewrite script_wrapper_run by exact Hargs. now rewrite Hcall. }
  assert (Htraced : traced to_logformat format_exc e w2
                    = mkWorld (log w2) (arguments w2) (serialize w2) (S (clock w2))
                        (trace w2
                           ++ [PrintLog_write
                                 (new_text (to_logformat (clock w2) ++ " - " ++ "    ")
                                    (format_exc e)) false true 0])%list).
  { unfold traced. rewrite write_run. cbn [snd Maybe_else_].
    rewrite Hlog. reflexivity. }
  rewrite init_wrapper_unfolded. fold body. rewrite Hbody, Hexc, Htraced.
  destruct (serialize w2).
  - match goal with |- context [dump ?W] => destruct (dump W) as [e'|] end.
    + exists e'. eexists. exists []. split; [reflexivity|].
      cbn [log trace]. rewrite Hlog. repeat split.
    + exists e. eexists. exists [Pickled (path (log w2))]. split; [reflexivity|].
      unfold emit. cbn [log trace]. rewrite Hlog, <- app_assoc. repeat split.
  - exists e. eexists. exists []. split; [reflexivity|].
    cbn [log trace]. rewrite Hlog. repeat split.
Qed.

End ConstructorPaths.

Lemma init_wrapper_body_returns_witness :
  serializing_init [] [] (at_body sample_new_log_file [] sample_world)
  = (Ok VNone, set_serialize true (at_body sample_new_log_file [] sample_world))
  /\ init_wrapper sample_to_logformat sample_format_exc sample_new_log_file dump_succeeds
       serializing_init [] [] sample_world
     = (Ok tt,
        emit (Pickled "logs/run.txt")
          (set_serialize true (at_body sample_new_log_file [] sample_world))).
Proof.
  assert (H : serializing_init [] [] (at_body sample_new_log_file [] sample_world)
              = (Ok VNone, set_serialize true (at_body sample_new_log_file [] sample_world)))
    by reflexivity.
  split; [exact H|].
  destruct (@init_wrapper_body_returns sample_to_logformat sample_format_exc
              sample_new_log_file dump_succeeds serializing_init [] [] sample_world _ _ H)
    as (_ & _ & _ & Hrun).
  rewrite Hrun. reflexivity.
Defined.

Lemma init_wrapper_passes_base_exceptions_witness :
  interrupted_init [] [] (at_body sample_new_log_file [] serializing_world)
  = (Raise interrupt, at_body sample_new_log_file [] serializing_world)
  /\ isinstance_Exception interrupt = false
  /\ init_wrapper sample_to_logformat sample_format_exc sample_new_log_file dump_succeeds
       interrupted_init [] [] serializing_world
     = (Raise interrupt, at_body sample_new_log_file [] serializing_world).
Proof.
  split; [reflexivity|]. split; [reflexivity|].
  exact (@init_wrapper_passes_base_exceptions sample_to_logformat sample_format_exc
           sample_new_log_file dump_succeeds interrupted_init [] [] serializing_world
           _ interrupt eq_refl eq_refl).
Defined.

Lemma init_wrapper_of_profiled_constructor_witness :
  (is_instance sample_method = true -> [VStr "job"] <> [])
  /\ isinstance_Exception boom = true
  /\ fst (init_wrapper sample_to_logformat sample_format_exc sample_new_log_file dump_succeeds
            (script_wrapper sample_repr failing_call sample_timer false sample_method)
            [VStr "job"] [] sample_world)
     <> Ok tt.
Proof.
  assert (H1 : is_instance sample_method = true -> [VStr "job"] <> []) by discriminate.
  split; [exact H1|]. split; [reflexivity|].
  destruct (@init_wrapper_of_profiled_constructor sample_to_logformat sample_format_exc
              sample_new_log_file dump_succeeds sample_repr failing_call sample_timer
              false sample_method [VStr "job"] [] sample_world _ boom H1
              eq_refl eq_refl eq_refl)
    as (e' & w3 & tail & Hrun & _).
  rewrite Hrun. discriminate.
Defined.

(** ** Records, wrapping and the walk over a class *)

Section WrappingFacts.

Variable repr_FunctionSpec : FunctionSpec -> string.
Variable closure : FunctionSpec -> nat.

(** X12.  A record the classifier makes is named after the class and the
    member, holds the function under the member, and has flags that say what
    its call-kind says: at most one of the three is on, none for an unknown
    member, and the record counts as bound for instance and class methods
    only. *)
Theorem FunctionSpec_init_flags :
  forall (parent : pyclass) (nm : string) (ref : pyobject) (spec : FunctionSpec),
    FunctionSpec_init parent nm ref = Ok spec ->
    name spec = (cls_name parent ++ "." ++ nm)%string
    /\ class_ spec = parent
    /\ getattr_func_or_self ref = Some (func spec)
    /\ (is_instance spec = true <-> type spec = INSTANCE)
    /\ (is_static spec = true <-> type spec = STATIC)
    /\ (is_class spec = true <-> type spec = CLASS)
    /\ (is_bound spec = true <-> type spec = INSTANCE \/ type spec = CLASS)
    /\ (type spec = UNKNOWN ->
        is_instance spec = false /\ is_static spec = false /\ is_class spec = false)
    /\ (is_instance spec && is_static spec = false)%bool
    /\ (is_instance spec && is_class spec = false)%bool
    /\ (is_static spec && is_class spec = false)%bool.
Proof.
  intros parent nm ref spec H. unfold FunctionSpec_init in H.
  destruct ref; cbn in H; inversion H; subst; clear H; cbn;
    repeat split; intros; try discriminate; try reflexivity;
    try (now left); try (now right);
    try (match goal with H : _ \/ _ |- _ => destruct H; discriminate end).
Qed.

(** X13.  Wrapping the record's own function again gives back a member that
    is called as the member the record was made from: the same implicit
    first argument and the same function, through an instance and through
    the class. *)
Theorem wrap_of_own_function :
  forall (parent : pyclass) (nm : string) (ref : pyobject) (spec : FunctionSpec),
    FunctionSpec_init parent nm ref = Ok spec ->
    type spec <> UNKNOWN ->
    exists member,
      wrap repr_FunctionSpec spec (func spec) = Ok member
      /\ (forall c a, calling_convention c member a = calling_convention c ref a)
      /\ (isfunction ref = true -> member = ref).
Proof.
  intros parent nm ref spec H Hknown. unfold FunctionSpec_init in H.
  destruct ref as [[m code]|attrs [m code]|attrs [m code]|receiver' [m code]|t];
    cbn in H; inversion H; subst; clear H; cbn in *; try congruence;
    (eexists; split; [reflexivity|]; split;
     [intros c a; destruct a; reflexivity | intros Hf; try discriminate]).
  reflexivity.
Qed.

(** X14.  What [wrap] returns is classified as the member it replaces was:
    the same call-kind, the same name, and the new function under it.  A
    class that was walked can be walked again. *)
Theorem wrap_then_classify :
  forall (parent : pyclass) (nm : string) (ref replacement : pyobject)
         (spec : FunctionSpec) (new_callable : function),
    FunctionSpec_init parent nm ref = Ok spec ->
    wrap repr_FunctionSpec spec new_callable = Ok replacement ->
    exists spec',
      FunctionSpec_init parent nm replacement = Ok spec'
      /\ type spec' = type spec
      /\ name spec' = name spec
      /\ is_bound spec' = is_bound spec
      /\ fn_code (func spec') = fn_code new_callable.
Proof.
  intros parent nm ref replacement spec g H Hwrap. unfold FunctionSpec_init in H.
  destruct ref as [f|attrs f|attrs f|receiver' f|t]; cbn in H;
    inversion H; subst; clear H; cbn in Hwrap; inversion Hwrap; subst; clear Hwrap;
    eexists; (split; [reflexivity|]); repeat split.
Qed.

(** X15.  Where the copied metadata ends up.  For an instance method the
    function that callers reach has the new code and the name, module and
    docstring of the original.  For a static or class method the metadata
    goes on the [staticmethod] or [classmethod] object, and the function
    that callers reach is the new function as it was given, under its own
    name. *)
Theorem wrap_metadata_placement :
  forall (parent : pyclass) (nm : string) (ref replacement : pyobject)
         (spec : FunctionSpec) (new_callable reached : function)
         (c : pyclass) (a : access) (i : implicit_argument),
    FunctionSpec_init parent nm ref = Ok spec ->
    wrap repr_FunctionSpec spec new_callable = Ok replacement ->
    calling_convention c replacement a = Some (i, reached) ->
    own_metadata replacement = Some (fn_meta (func spec))
    /\ fn_code reached = fn_code new_callable
    /\ (type spec = INSTANCE -> fn_meta reached = fn_meta (func spec))
    /\ (type spec <> INSTANCE -> reached = new_callable).
Proof.
  intros parent nm ref replacement spec g reached c a i H Hwrap Hcc.
  unfold FunctionSpec_init in H.
  destruct ref as [f|attrs f|attrs f|receiver' f|t]; cbn in H;
    inversion H; subst; clear H; cbn in Hwrap; inversion Hwrap; subst; clear Hwrap;
    destruct a; cbn in Hcc; inversion Hcc; subst; clear Hcc; cbn;
    repeat split; intros; congruence.
Qed.

Lemma valid_is_classified (parent : pyclass) (nm : string) (o : pyobject) :
  _is_valid_function_type o = true ->
  exists spec wrapped,
    FunctionSpec_init parent nm o = Ok spec
    /\ type spec = kind_of o
    /\ type spec <> UNKNOWN
    /\ ScriptProfiler_call repr_FunctionSpec closure spec = Ok wrapped
    /\ kind_of wrapped = kind_of o
    /\ (forall c a, implicit_first_argument c wrapped a = implicit_first_argument c o a)
    /\ (forall c a, option_map (fun p => fn_code (snd p)) (calling_convention c wrapped a)
                    = Some (closure spec))
    /\ own_metadata wrapped = Some (fn_meta (func spec))
    /\ getattr_func_or_self o = Some (func spec).
Proof.
  intros Hvalid.
  destruct o as [f|attrs f|attrs f|receiver' f|t]; cbn in Hvalid; try discriminate;
    (eexists; eexists; split; [reflexivity|]; cbn; repeat split;
     try discriminate; intros c a; try destruct a; reflexivity).
Qed.

(** X16.  The members the walk takes for functions are the ones the
    classifier knows: a candidate passes [_is_valid_function_type] exactly
    when the classifier makes a record of it whose call-kind is not unknown,
    and the profiler then wraps it without raising. *)
Theorem valid_function_types_are_the_known_kinds :
  forall (parent : pyclass) (nm : string) (candidate : pyobject),
    (_is_valid_function_type candidate = true
     <-> exists spec, FunctionSpec_init parent nm candidate = Ok spec
                      /\ type spec <> UNKNOWN)
    /\ (_is_valid_function_type candidate = true ->
        exists spec wrapped,
          FunctionSpec_init parent nm candidate = Ok spec
          /\ ScriptProfiler_call repr_FunctionSpec closure spec = Ok wrapped).
Proof.
  intros parent nm candidate. split; [split|].
  - intros H. destruct (valid_is_classified parent nm candidate H)
      as (spec & _ & Hinit & _ & Hknown & _). now exists spec.
  - intros (spec & Hinit & Hknown).
    destruct candidate; cbn in *; try reflexivity;
      inversion Hinit; subst; cbn in Hknown; congruence.
  - intros H. destruct (valid_is_classified parent nm candidate H)
      as (spec & wrapped & Hinit & _ & _ & Hcall & _). now exists spec, wrapped.
Qed.

End WrappingFacts.

Lemma FunctionSpec_init_flags_witness :
  FunctionSpec_init sample_class "run" sample_static = Ok sample_spec
  /\ name sample_spec = "Job.run"
  /\ (is_bound sample_spec = true <-> type sample_spec = INSTANCE \/ type sample_spec = CLASS).
Proof.
  assert (H : FunctionSpec_init sample_class "run" sample_static = Ok sample_spec)
    by reflexivity.
  split; [exact H|].
  destruct (@FunctionSpec_init_flags sample_class "run" sample_static sample_spec H)
    as (Hname & _ & _ & _ & _ & _ & Hbound & _).
  split; [exact Hname | exact Hbound].
Defined.

Lemma wrap_of_own_function_witness :
  FunctionSpec_init sample_class "run" sample_static = Ok sample_spec
  /\ type sample_spec <> UNKNOWN
  /\ wrap sample_repr_FunctionSpec sample_spec (func sample_spec)
     = Ok (StaticMethod (Some (fn_meta sample_function)) sample_function).
Proof.
  assert (H : FunctionSpec_init sample_class "run" sample_static = Ok sample_spec)
    by reflexivity.
  assert (Hk : type sample_spec <> UNKNOWN) by discriminate.
  split; [exact H|]. split; [exact Hk|].
  destruct (@wrap_of_own_function sample_repr_FunctionSpec sample_class "run"
              sample_static sample_spec H Hk) as (member & Hwrap & _).
  rewrite Hwrap. f_equal. cbv in Hwrap. now inversion Hwrap.
Defined.

Lemma wrap_then_classify_witness :
  FunctionSpec_init sample_class "run" sample_static = Ok sample_spec
  /\ wrap sample_repr_FunctionSpec sample_spec sample_wrapper
     = Ok (StaticMethod (Some (fn_meta sample_function)) sample_wrapper)
  /\ exists spec',
       FunctionSpec_init sample_class "run"
         (StaticMethod (Some (fn_meta sample_function)) sample_wrapper) = Ok spec'
       /\ type spec' = STATIC.
Proof.
  assert (H : FunctionSpec_init sample_class "run" sample_static = Ok sample_spec)
    by reflexivity.
  assert (Hw : wrap sample_repr_FunctionSpec sample_spec sample_wrapper
               = Ok (StaticMethod (Some (fn_meta sample_function)) sample_wrapper))
    by reflexivity.
  split; [exact H|]. split; [exact Hw|].
  destruct (@wrap_then_classify sample_repr_FunctionSpec sample_class "run" sample_static
              _ sample_spec sample_wrapper H Hw) as (spec' & Hinit & Htype & _).
  exists spec'. split; [exact Hinit | exact Htype].
Defined.

Lemma wrap_metadata_placement_witness :
  FunctionSpec_init sample_class "run" sample_static = Ok sample_spec
  /\ wrap sample_repr_FunctionSpec sample_spec sample_wrapper
     = Ok (StaticMethod (Some (fn_meta sample_function)) sample_wrapper)
  /\ calling_convention sample_class
       (StaticMethod (Some (fn_meta sample_function)) sample_wrapper) ThroughClass
     = Some (NoImplicit, sample_wrapper)
  /\ md_name (fn_meta sample_wrapper) = "script_wrapper"
  /\ option_map md_name
       (own_metadata (StaticMethod (Some (fn_meta sample_function)) sample_wrapper))
     = Some "run".
Proof.
  assert (H : FunctionSpec_init sample_class "run" sample_static = Ok sample_spec)
    by reflexivity.
  assert (Hw : wrap sample_repr_FunctionSpec sample_spec sample_wrapper
               = Ok (StaticMethod (Some (fn_meta sample_function)) sample_wrapper))
    by reflexivity.
  assert (Hc : calling_convention sample_class
                 (StaticMethod (Some (fn_meta sample_function)) sample_wrapper) ThroughClass
               = Some (NoImplicit, sample_wrapper)) by reflexivity.
  split; [exact H|]. split; [exact Hw|]. split; [exact Hc|].
  destruct (@wrap_metadata_placement sample_repr_FunctionSpec sample_class "run"
              sample_static _ sample_spec sample_wrapper _ _ _ _ H Hw Hc)
    as (Hmeta & _).
  split; [reflexivity|]. rewrite Hmeta. reflexivity.
Defined.

Lemma valid_function_types_are_the_known_kinds_witness :
  _is_valid_function_type sample_static = true
  /\ exists spec wrapped,
       FunctionSpec_init sample_class "run" sample_static = Ok spec
       /\ ScriptProfiler_call sample_repr_FunctionSpec sample_closure spec = Ok wrapped.
Proof.
  split; [reflexivity|].
  exact (proj2 (@valid_function_types_are_the_known_kinds sample_repr_FunctionSpec
                  sample_closure sample_class "run" sample_static) eq_refl).
Defined.

(** ** The walk over a class *)

Section WalkFacts.

Variable repr_FunctionSpec : FunctionSpec -> string.
Variable closure : FunctionSpec -> nat.

Local Abbreviation walk := (_recursively_wrap repr_FunctionSpec closure).
Local Abbreviation turn := (wrap_attribute repr_FunctionSpec closure walk).

Lemma wrap_attribute_of_object (parent : pyclass) (nm : string) (o : pyobject) :
  exists o', turn parent nm (Attr o) = (Ok tt, Attr o')
             /\ (_is_valid_function_type o && wrappable_name nm = false -> o' = o)
             /\ (_is_valid_function_type o && wrappable_name nm = true ->
                 exists spec,
                   FunctionSpec_init parent nm o = Ok spec
                   /\ ScriptProfiler_call repr_FunctionSpec closure spec = Ok o').
Proof.
  unfold wrap_attribute.
  destruct (_is_valid_function_type o) eqn:Hvalid; cbn [andb].
  - destruct (wrappable_name nm).
    + destruct (valid_is_classified repr_FunctionSpec closure parent nm o Hvalid)
        as (spec & wrapped & Hinit & _ & _ & Hcall & _).
      rewrite Hinit, Hcall. exists wrapped. split; [reflexivity|].
      split; [discriminate|]. intros _. now exists spec.
    + exists o. split; [reflexivity|]. split; [reflexivity | discriminate].
  - exists o. split; [reflexivity|]. split; [reflexivity | discriminate].
Qed.

Lemma walk_run :
  forall item : class_object,
    walk item
    = (Ok tt,
       Class (class_of item)
         (map (fun nv => (fst nv, snd (turn (class_of item) (fst nv) (snd nv))))
            (vars_of item))).
Proof.
  fix IH 1. intros [c vars]. cbn [_recursively_wrap class_of vars_of].
  match goal with
  | |- (let (r, vars') := ?loop vars in _) = _ =>
      assert (Hloop : loop vars
                      = (Ok tt,
                         map (fun nv => (fst nv, snd (turn c (fst nv) (snd nv)))) vars))
  end.
  { induction vars as [|[nm val] rest IHrest]; [reflexivity|].
    cbn [map fst snd].
    assert (Hturn : fst (turn c nm val) = Ok tt).
    { destruct val as [o|k].
      - destruct (wrap_attribute_of_object c nm o) as (o' & -> & _). reflexivity.
      - cbn [wrap_attribute]. rewrite (IH k). reflexivity. }
    destruct (turn c nm val) as [[[]|e] val'] eqn:Hval; cbn [fst] in Hturn;
      [|discriminate].
    rewrite IHrest. reflexivity. }
  rewrite Hloop. reflexivity.
Qed.


Lemma walked_entry (c : pyclass) (vars : list (string * attribute)) (i : nat)
      (nm : string) (val : attribute) :
  nth_error vars i = Some (nm, val) ->
  nth_error (vars_of (snd (walk (Class c vars)))) i = Some (nm, snd (turn c nm val)).
Proof.
  intros H. rewrite walk_run. cbn [snd vars_of class_of].
  rewrite nth_error_map, H. reflexivity.
Qed.

(** X18.  What the walk leaves as it is: an attribute that is no function,
    [staticmethod] or [classmethod] object, and a function under a name
    that starts and ends with two underscores, [__init__] apart. *)
Theorem walk_leaves_the_rest :
  forall (c : pyclass) (vars : list (string * attribute)) (i : nat)
         (nm : string) (o : pyobject),
    nth_error vars i = Some (nm, Attr o) ->
    _is_valid_function_type o = false
    \/ (nm <> "__init__" /\ startswith nm "__" = true /\ endswith nm "__" = true) ->
    nth_error (vars_of (snd (walk (Class c vars)))) i = Some (nm, Attr o).
Proof.
  intros c vars i nm o Hnth Hskip.
  rewrite (walked_entry c vars i Hnth).
  destruct (wrap_attribute_of_object c nm o) as (o' & -> & Hsame & _).
  cbn [snd]. rewrite Hsame; [reflexivity|].
  destruct Hskip as [->|(Hinit & Hs & He)]; [reflexivity|].
  unfold wrappable_name. rewrite Hs, He.
  apply String.eqb_neq in Hinit. rewrite Hinit. apply andb_false_r.
Qed.



End WalkFacts.

Lemma walk_leaves_the_rest_witness :
  nth_error (vars_of sample_job) 1 = Some ("__repr__", Attr (Function sample_dunder))
  /\ ("__repr__" <> "__init__" /\ startswith "__repr__" "__" = true
      /\ endswith "__repr__" "__" = true)
  /\ nth_error
       (vars_of (snd (_recursively_wrap sample_repr_FunctionSpec sample_closure sample_job))) 1
     = Some ("__repr__", Attr (Function sample_dunder)).
Proof.
  assert (H1 : nth_error (vars_of sample_job) 1
               = Some ("__repr__", Attr (Function sample_dunder))) by reflexivity.
  assert (H2 : "__repr__" <> "__init__" /\ startswith "__repr__" "__" = true
               /\ endswith "__repr__" "__" = true)
    by (split; [discriminate | split; reflexivity]).
  split; [exact H1|]. split; [exact H2|].
  exact (@walk_leaves_the_rest sample_repr_FunctionSpec sample_closure sample_class _ 1
           "__repr__" (Function sample_dunder) H1 (or_intror H2)).
Defined.



(** ** The text of a script *)

Section ReprFacts.

Variable repr : pyval -> string.

(** X21.  An attribute whose name starts with an underscore does not show in
    the text of a script, wherever it stands among the attributes; a script
    without attributes reads as the name of its class and an empty pair of
    brackets. *)
Theorem Script_repr_hides_private :
  forall (type_name a : string) (v : pyval) (before after : list (string * pyval)),
    startswith a "_" = true ->
    Script_repr repr type_name (before ++ (a, v) :: after)
    = Script_repr repr type_name (before ++ after)
    /\ Script_repr repr type_name [(a, v)] = (type_name ++ "()")%string.
Proof.
  intros type_name a v before after H. unfold Script_repr.
  split.
  - rewrite !filter_app. cbn [filter fst]. rewrite H. reflexivity.
  - cbn [filter fst]. rewrite H. reflexivity.
Qed.

End ReprFacts.

Lemma Script_repr_hides_private_witness :
  startswith "_profiler" "_" = true
  /\ Script_repr sample_repr "Job" [("mode", VStr "fast"); ("_profiler", VNone); ("dry", VBool true)]
     = "Job(mode='fast', dry=True)".
Proof.
  split; [reflexivity|].
  exact (eq_trans
           (proj1 (@Script_repr_hides_private sample_repr "Job" "_profiler" VNone
                     [("mode", VStr "fast")] [("dry", VBool true)] eq_refl))
           eq_refl).
Defined.

(** ** The widget mapper, on what it seeds *)

Module WidgetSeedFacts.
Import Widget WidgetSamples.

Section SeedFacts.

Variable str_Argument : Argument -> string.

(** X22.  Every handle the mapper returns is seeded with the default of its
    descriptor, but for one case: a boolean descriptor without choices whose
    default is [None] gets a checkbox that is off. *)
Theorem from_argument_seeds_default :
  forall (arg : Argument) (h : WidgetHandler),
    from_argument str_Argument arg = Ok h ->
    seed (widget h)
    = match choices arg, arg_class arg, default arg with
      | None, BooleanArgument, VNone => VBool false
      | _, _, _ => default arg
      end.
Proof.
  intros arg h. unfold from_argument, isinstance.
  destruct (choices arg) as [cs|]; [intros H; inversion H; reflexivity|].
  destruct (arg_class arg); cbn;
    try destruct (deep_is_str_bool (deep_type arg));
    try destruct (magnitude_above_one (widget_magnitude arg));
    intros H; inversion H; subst; cbn; reflexivity.
Qed.

(** X23.  A dictionary descriptor without choices gets the multi-check
    control exactly when its keys are strings and its values booleans, and
    the tree editor otherwise; either is made from the default. *)
Theorem from_argument_of_dictionary :
  forall (arg : Argument),
    arg_class arg = DictArgument ->
    choices arg = None ->
    (deep_type arg = DeepPair Tstr Tbool ->
     from_argument str_Argument arg = Ok (mkHandler (CheckBar (default arg)) (Some arg)))
    /\ (deep_type arg <> DeepPair Tstr Tbool ->
        from_argument str_Argument arg = Ok (mkHandler (Tree (default arg)) (Some arg))).
Proof.
  intros arg Hclass Hchoices. unfold from_argument, isinstance.
  rewrite Hchoices, Hclass. cbn. split.
  - intros ->. reflexivity.
  - intros Hdeep.
    destruct (deep_type arg) as [|t|k v]; try reflexivity.
    destruct k, v; try reflexivity. congruence.
Qed.

End SeedFacts.

Lemma from_argument_seeds_default_witness :
  from_argument sample_str unset_boolean
  = Ok (mkHandler (Checkbox (VBool false)) (Some unset_boolean))
  /\ seed (Checkbox (VBool false)) = VBool false.
Proof.
  assert (H : from_argument sample_str unset_boolean
              = Ok (mkHandler (Checkbox (VBool false)) (Some unset_boolean)))
    by reflexivity.
  split; [exact H|].
  exact (@from_argument_seeds_default sample_str unset_boolean _ H).
Defined.

Lemma from_argument_of_dictionary_witness :
  arg_class flags_descriptor = DictArgument
  /\ choices flags_descriptor = None
  /\ deep_type flags_descriptor = DeepPair Tstr Tbool
  /\ from_argument sample_str flags_descriptor
     = Ok (mkHandler (CheckBar (default flags_descriptor)) (Some flags_descriptor)).
Proof.
  split; [reflexivity|]. split; [reflexivity|]. split; [reflexivity|].
  exact (proj1 (@from_argument_of_dictionary sample_str flags_descriptor eq_refl eq_refl)
           eq_refl).
Defined.

End WidgetSeedFacts.
